(** * RepoMapper: the MCP server front end ([repomap_server.py])

    A shallow embedding of the server module: the file enumerator
    [find_src_files], the project registry [ProjectConfig], and the two tools
    [repo_map] and [search_identifiers], followed by the properties the
    specification states about them.

    Conventions of the embedding.
    - Python [str] is [string]; [str.lower] is the ASCII case mapping.
    - A Python [dict] with string keys is a [gmap string _] when only lookups
      matter, and an association list when the iteration order matters.
    - A Python [set] is a [gset].
    - An exception caught by [except Exception as e] is carried as [str(e)]
      in the error type [exc].
    - Logging has no influence on results and is left out. *)

From stdpp Require Import base list strings gmap sorting.
From Stdlib Require Import ZArith Ascii.

Local Open Scope string_scope.
Local Open Scope list_scope.

(** ** Python string primitives *)

Module Py.

Definition lower_char (c : ascii) : ascii :=
  let n := nat_of_ascii c in
  if (65 <=? n)%nat && (n <=? 90)%nat then ascii_of_nat (n + 32) else c.

(** [s.lower()] *)
Fixpoint lower (s : string) : string :=
  match s with
  | EmptyString => EmptyString
  | String c s' => String (lower_char c) (lower s')
  end.

(** [s.startswith(p)] *)
Fixpoint startswith (s p : string) {struct p} : bool :=
  match p, s with
  | EmptyString, _ => true
  | String _ _, EmptyString => false
  | String a p', String b s' => if decide (a = b) then startswith s' p' else false
  end.

(** [s.endswith(p)] for a one-character [p] *)
Fixpoint endswith_char (s : string) (c : ascii) : bool :=
  match s with
  | EmptyString => false
  | String a EmptyString => bool_decide (a = c)
  | String _ s' => endswith_char s' c
  end.

(** [sub in s] *)
Fixpoint str_in (sub s : string) : bool :=
  startswith s sub ||
  match s with
  | EmptyString => false
  | String _ s' => str_in sub s'
  end.

Fixpoint find_from (i : Z) (s sub : string) : Z :=
  if startswith s sub then i
  else match s with
       | EmptyString => (-1)%Z
       | String _ s' => find_from (i + 1) s' sub
       end.

(** [s.find(sub)]: the lowest index of an occurrence, [-1] when there is none *)
Definition find (s sub : string) : Z := find_from 0 s sub.

(** Truthiness of a string and of a list: empty is false. *)
Definition truthy_str (s : string) : bool := negb (bool_decide (s = "")).
Definition truthy_list {A} (l : list A) : bool :=
  match l with [] => false | _ => true end.

(** [l[:n]] *)
Definition slice_to {A} (n : Z) (l : list A) : list A :=
  if (0 <=? n)%Z then take (Z.to_nat n) l
  else take (Z.to_nat (Z.of_nat (length l) + n)) l.

(** [list(range(a, b))] *)
Definition range (a b : Z) : list Z :=
  (fun i => (a + Z.of_nat i)%Z) <$> seq 0 (Z.to_nat (b - a)).

(** [x or d] for an optional string: [None] and [""] are both false. *)
Definition str_or (x : option string) (d : string) : string :=
  match x with
  | Some s => if truthy_str s then s else d
  | None => d
  end.

(** [os.path.join(a, b)] on POSIX *)
Definition os_path_join (a b : string) : string :=
  if startswith b "/" then b
  else if negb (truthy_str a) || endswith_char a "/" then a +:+ b
  else a +:+ "/" +:+ b.

End Py.

(** ** Exceptions *)

Inductive exc (A : Type) : Type :=
| Ok (a : A)
| Raise (msg : string).
Arguments Ok {A} a.
Arguments Raise {A} msg.

#[global] Instance exc_ret : MRet exc := fun A a => Ok a.
#[global] Instance exc_bind : MBind exc := fun A B k m =>
  match m with
  | Ok a => k a
  | Raise e => Raise e
  end.

(** [for x in l: acc.extend(f x)], stopping at the first exception *)
Fixpoint exc_extend {A B} (f : A -> exc (list B)) (l : list A) : exc (list B) :=
  match l with
  | [] => Ok []
  | x :: l' => ys ← f x; zs ← exc_extend f l'; mret (ys ++ zs)
  end.

(** ** The file system and [find_src_files] *)

(** A directory entry is a regular file or a directory with named entries, in
    the order [os.walk] reports them. Symbolic links and unreadable
    directories are not part of the model. *)
#[local] Unset Elimination Schemes.
Inductive fsnode : Type :=
| File
| Dir (entries : list (string * fsnode)).
#[local] Set Elimination Schemes.

(** What a path string denotes: [None] when nothing exists there. *)
Definition filesystem := string -> option fsnode.

Definition is_dir (n : fsnode) : bool :=
  match n with Dir _ => true | File => false end.

Definition excluded_dirs : list string :=
  ["node_modules"; "__pycache__"; "venv"; "env"].

(** The filter of line 21: [not d_name.startswith('.') and d_name not in {...}] *)
Definition keep_dir (d_name : string) : bool :=
  negb (Py.startswith d_name ".") && bool_decide (d_name ∉ excluded_dirs).

(** The filter of line 23: [not f.startswith('.')] *)
Definition keep_file (f : string) : bool := negb (Py.startswith f ".").

(** The names of the non-directory entries of a directory: [f_list]. *)
Definition file_names (es : list (string * fsnode)) : list string :=
  (filter (fun e => negb (is_dir e.2)) es).*1.

(** The loop over [os.walk(directory)]: the files of [r] first, then the walk
    of every kept sub-directory, in order. *)
Fixpoint walk (r : string) (n : fsnode) {struct n} : list string :=
  match n with
  | File => []
  | Dir es =>
      (Py.os_path_join r <$> filter (fun f => keep_file f = true) (file_names es)) ++
      (fix subdirs (es : list (string * fsnode)) : list string :=
         match es with
         | [] => []
         | (d_name, sub) :: es' =>
             (if is_dir sub && keep_dir d_name
              then walk (Py.os_path_join r d_name) sub else []) ++ subdirs es'
         end) es
  end.

Definition find_src_files (fs : filesystem) (directory : string) : list string :=
  match fs directory with
  | Some (Dir es) => walk directory (Dir es)
  | Some File => [directory]
  | None => []
  end.

(** ** The project registry *)

(** [self.config]: the value under ['projects'] ([None] when the key is
    absent), a dict from project keys to dicts of string fields, in the order
    [items()] iterates it. *)
Record ProjectConfig : Type := {
  config_projects : option (list (string * gmap string string))
}.

Fixpoint first_project_root (projects : list (string * gmap string string))
    (project_name : string) : string :=
  match projects with
  | [] => ""
  | (key, project_data) :: rest =>
      if bool_decide (Py.lower key = Py.lower project_name)
      then default "" (project_data !! "root")
      else first_project_root rest project_name
  end.

Definition get_project_root (self : ProjectConfig) (project_name : string) : string :=
  let projects := default [] (config_projects self) in
  first_project_root projects project_name.

(** ** Collaborators outside this module *)

Module Tag.
(** Modelled from the spec: the [Tag] tuple of the map engine (module
    [repomap_class], not part of the server module), spec section 3, with the
    fields the server reads. [kind] is the string ["def"] or ["ref"]. *)
Record t : Type := mk {
  rel_fname : string;
  line : Z;
  name : string;
  kind : string
}.
End Tag.

(** [pathlib]: [str(Path(f).resolve())], [str(Path(f).relative_to(root))]
    (which raises when [f] is not below [root]) and [str(Path(a) / b)]. *)
Class Pathlib : Type := {
  resolve : string -> string;
  relative_to : string -> string -> exc string;
  path_div : string -> string -> string
}.

(** [utils]: [count_tokens(text, model)] and [read_text(path)]. *)
Class Utils : Type := {
  count_tokens : string -> string -> Z;
  read_text : string -> option string
}.

(** The keyword arguments of the [RepoMap] constructor; [None] for
    [map_tokens] and [max_context_window] when the argument is not passed. *)
Record RepoMapArgs : Type := {
  map_tokens : option Z;
  root : string;
  token_counter_func : string -> Z;
  file_reader_func : string -> option string;
  verbose : bool;
  exclude_unranked : bool;
  max_context_window : option Z
}.

(** The [RepoMap] class as the server uses it. An object may change when a
    method runs (the tag cache), so [get_tags] and [render_tree], which the
    search calls in a loop, return the object along with their result. *)
Class RepoMapClass : Type := {
  RepoMap : Type;
  RepoMap_init : RepoMapArgs -> exc RepoMap;
  get_repo_map : RepoMap -> list string -> list string ->
                 option (gset string) -> option (gset string) -> bool ->
                 exc (option string);
  get_tags : RepoMap -> string -> string -> exc (list Tag.t * RepoMap);
  render_tree : RepoMap -> string -> string -> list Z ->
                exc (option string * RepoMap)
}.

(** ** Tool responses *)

Module Match.
(** One entry of the ["results"] list: the dict with keys [file], [line],
    [name], [kind] and [context]. *)
Record t : Type := mk {
  file : string;
  line : Z;
  name : string;
  kind : string;
  context : string
}.
End Match.

Inductive pyval : Type :=
| PStr (s : string)
| PMatches (ms : list Match.t).

(** A tool returns a [Dict[str, Any]]. *)
Abbreviation response := (gmap string pyval).

Definition not_initialized : response :=
  {[ "error" := PStr "Server not fully initialized. ProjectConfig is missing." ]}.

Definition project_not_found (project_name : string) : response :=
  {[ "error" := PStr ("Project '" +:+ project_name +:+ "' not found in projects.json") ]}.

(** [set(l) if l else None] *)
Definition set_or_none (l : option (list string)) : option (gset string) :=
  match l with
  | Some (x :: l') => Some (list_to_set (x :: l'))
  | _ => None
  end.

(** ** The tools *)

Section Server.
Context {pathlib : Pathlib} {utils : Utils} {engine : RepoMapClass}.

(** *** [repo_map] *)

(** What step 4 hands to the engine: the constructor arguments and the
    arguments of [get_repo_map]. *)
Record engine_call : Type := {
  call_args : RepoMapArgs;
  call_chat_files : list string;
  call_other_files : list string;
  call_mentioned_fnames : option (gset string);
  call_mentioned_idents : option (gset string);
  call_force_refresh : bool
}.

(** Lines 136-143: the given [other_files], or a scan of the project root
    when none are given. *)
Definition effective_other_files (fs : filesystem) (project_root : string)
    (other_files : option (list string)) : list string :=
  match other_files with
  | Some (f :: l) => f :: l
  | _ => find_src_files fs project_root
  end.

(** Lines 119-174, up to the engine: an early response, or the call that
    step 4 makes. *)
Definition repo_map_request (project_config : option ProjectConfig)
    (fs : filesystem) (project_name : string)
    (chat_files other_files : option (list string)) (token_limit : Z)
    (exclude_unranked force_refresh : bool)
    (mentioned_files mentioned_idents : option (list string))
    (verbose : bool) (max_context_window : option Z)
    : response + engine_call :=
  match project_config with
  | None => inl not_initialized
  | Some project_config =>
      let project_root := get_project_root project_config project_name in
      if negb (Py.truthy_str project_root)
      then inl (project_not_found project_name)
      else
        let chat_files_list := default [] chat_files in
        let mentioned_fnames_set := set_or_none mentioned_files in
        let mentioned_idents_set := set_or_none mentioned_idents in
        let effective_other_files :=
          effective_other_files fs project_root other_files in
        if negb (Py.truthy_list chat_files_list)
           && negb (Py.truthy_list effective_other_files)
        then inl {[ "map" := PStr "No files found to generate a map." ]}
        else
          let root_path := resolve project_root in
          let abs_chat_files := resolve <$> chat_files_list in
          let abs_other_files := resolve <$> effective_other_files in
          let abs_chat_files_set : gset string := list_to_set abs_chat_files in
          let abs_other_files :=
            filter (fun f => f ∉ abs_chat_files_set) abs_other_files in
          inr {| call_args :=
                   {| map_tokens := Some token_limit;
                      root := root_path;
                      token_counter_func := fun text => count_tokens text "gpt-4";
                      file_reader_func := read_text;
                      verbose := verbose;
                      exclude_unranked := exclude_unranked;
                      max_context_window := max_context_window |};
                 call_chat_files := abs_chat_files;
                 call_other_files := abs_other_files;
                 call_mentioned_fnames := mentioned_fnames_set;
                 call_mentioned_idents := mentioned_idents_set;
                 call_force_refresh := force_refresh |}
  end.

(** Lines 164-191: the two [try] blocks around the engine. *)
Definition run_engine (c : engine_call) : response :=
  match RepoMap_init (call_args c) with
  | Raise e => {[ "error" := PStr ("Failed to initialize RepoMap: " +:+ e) ]}
  | Ok repo_mapper =>
      match get_repo_map repo_mapper (call_chat_files c) (call_other_files c)
              (call_mentioned_fnames c) (call_mentioned_idents c)
              (call_force_refresh c) with
      | Ok map_content =>
          {[ "map" := PStr (Py.str_or map_content
                              "No repository map could be generated.") ]}
      | Raise e => {[ "error" := PStr ("Error generating repository map: " +:+ e) ]}
      end
  end.

Definition repo_map (project_config : option ProjectConfig)
    (fs : filesystem) (project_name : string)
    (chat_files other_files : option (list string)) (token_limit : Z)
    (exclude_unranked force_refresh : bool)
    (mentioned_files mentioned_idents : option (list string))
    (verbose : bool) (max_context_window : option Z) : response :=
  match repo_map_request project_config fs project_name chat_files other_files
          token_limit exclude_unranked force_refresh mentioned_files
          mentioned_idents verbose max_context_window with
  | inl early => early
  | inr c => run_engine c
  end.

(** *** [search_identifiers] *)

(** Lines 266-274: the tags of every source file of the project. *)
Fixpoint collect_tags (repo_map : RepoMap) (project_root : string)
    (all_files : list string) : exc (list Tag.t * RepoMap) :=
  match all_files with
  | [] => mret ([], repo_map)
  | file_path :: rest =>
      rel_path ← relative_to file_path project_root;
      '(tags, repo_map) ← get_tags repo_map file_path rel_path;
      '(more, repo_map) ← collect_tags repo_map project_root rest;
      mret (tags ++ more, repo_map)
  end.

(** Lines 281-283: the test a tag passes to be appended to [matching_tags]. *)
Definition tag_matches (query_lower : string)
    (include_definitions include_references : bool) (tag : Tag.t) : bool :=
  Py.str_in query_lower (Py.lower (Tag.name tag))
  && ((bool_decide (Tag.kind tag = "def") && include_definitions)
      || (bool_decide (Tag.kind tag = "ref") && include_references)).

(** Lines 276-284 *)
Definition filter_tags (query : string)
    (include_definitions include_references : bool)
    (all_tags : list Tag.t) : list Tag.t :=
  let query_lower := Py.lower query in
  filter (fun tag => tag_matches query_lower include_definitions
                       include_references tag = true) all_tags.

(** The sort key of line 287: [(x.kind != "def", x.name.lower().find(query_lower))] *)
Definition sort_key (query_lower : string) (x : Tag.t) : bool * Z :=
  (negb (bool_decide (Tag.kind x = "def")),
   Py.find (Py.lower (Tag.name x)) query_lower).

(** [a < b] on such tuples: [False < True], then the integers. *)
Definition key_lt (a b : bool * Z) : bool :=
  (negb a.1 && b.1) || (bool_decide (a.1 = b.1) && (a.2 <? b.2)%Z).

(** [list.sort(key=...)] is stable: an element is moved only past elements
    whose key is strictly greater. *)
Fixpoint sort_insert {A} (key : A -> bool * Z) (x : A) (l : list A) : list A :=
  match l with
  | [] => [x]
  | y :: l' => if key_lt (key x) (key y) then x :: y :: l'
               else y :: sort_insert key x l'
  end.

Definition list_sort {A} (key : A -> bool * Z) (l : list A) : list A :=
  foldl (fun sorted x => sort_insert key x sorted) [] l.

(** Lines 286-290: sort, then limit. *)
Definition sorted_matches (query : string)
    (include_definitions include_references : bool)
    (all_tags : list Tag.t) : list Tag.t :=
  list_sort (sort_key (Py.lower query))
    (filter_tags query include_definitions include_references all_tags).

Definition limited_matches (query : string) (max_results : Z)
    (include_definitions include_references : bool)
    (all_tags : list Tag.t) : list Tag.t :=
  Py.slice_to max_results
    (sorted_matches query include_definitions include_references all_tags).

(** Lines 292-315: one entry per tag whose rendered context is not empty. *)
Fixpoint format_results (repo_map : RepoMap) (project_root : string)
    (context_lines : Z) (matching_tags : list Tag.t)
    : exc (list Match.t * RepoMap) :=
  match matching_tags with
  | [] => mret ([], repo_map)
  | tag :: rest =>
      let file_path := path_div project_root (Tag.rel_fname tag) in
      let start_line := Z.max 1 (Tag.line tag - context_lines) in
      let end_line := (Tag.line tag + context_lines)%Z in
      let context_range := Py.range start_line (end_line + 1) in
      '(context, repo_map) ←
        render_tree repo_map file_path (Tag.rel_fname tag) context_range;
      '(more, repo_map) ← format_results repo_map project_root context_lines rest;
      mret (match context with
            | Some context =>
                if Py.truthy_str context
                then [ Match.mk (Tag.rel_fname tag) (Tag.line tag)
                         (Tag.name tag) (Tag.kind tag) context ]
                else []
            | None => []
            end ++ more, repo_map)
  end.

(** Lines 255-317: the body of the [try]. *)
Definition search_body (fs : filesystem) (project_root query : string)
    (max_results context_lines : Z)
    (include_definitions include_references : bool) : exc (list Match.t) :=
  repo_map ← RepoMap_init
    {| map_tokens := None;
       root := project_root;
       token_counter_func := fun text => count_tokens text "gpt-4";
       file_reader_func := read_text;
       verbose := false;
       exclude_unranked := true;
       max_context_window := None |};
  let all_files := find_src_files fs project_root in
  '(all_tags, repo_map) ← collect_tags repo_map project_root all_files;
  let matching_tags :=
    limited_matches query max_results include_definitions include_references
      all_tags in
  '(results, _) ← format_results repo_map project_root context_lines matching_tags;
  mret results.

Definition search_identifiers (project_config : option ProjectConfig)
    (fs : filesystem) (project_name query : string)
    (max_results context_lines : Z)
    (include_definitions include_references : bool) : response :=
  match project_config with
  | None => not_initialized
  | Some project_config =>
      let project_root := get_project_root project_config project_name in
      if negb (Py.truthy_str project_root)
      then project_not_found project_name
      else
        match search_body fs project_root query max_results context_lines
                include_definitions include_references with
        | Ok results => {[ "results" := PMatches results ]}
        | Raise e => {[ "error" := PStr ("Error searching identifiers: " +:+ e) ]}
        end
  end.

End Server.

(** ** The map renderer of the engine *)

(** The engine ([repomap_class.RepoMap]) is not part of the server module.
    The token-budget property is a property of its renderer, which is modelled
    here from section 4.5 of the specification. Tag extraction, the relevance
    graph and the ranker are taken as given through [ranked_tags], which
    yields the candidates of steps 1 and 2 sorted by rank, best first. *)
Section MapRenderer.
Context {RankedTag : Type}.
(** steps 1-2: candidates from the files not in [chat_files], sorted *)
Variable ranked_tags :
  list string -> list string -> option (gset string) -> option (gset string) ->
  list RankedTag.
Variable rank_is_zero : RankedTag -> bool.
(** step 4: the text of a selection of tags *)
Variable render : list RankedTag -> string.
(** step 5: the budget derived from the context window *)
Variable window_budget : Z -> Z.
(** section 5: the cap on trial renderings *)
Variable max_trials : nat.
(** the budget when the constructor gets no [map_tokens] *)
Variable default_map_tokens : Z.

(** Modelled from the spec: step 2 of the renderer, "if [exclude_unranked]
    is set, drop all candidates with score 0". *)
Definition candidates (exclude_unranked : bool) (chat_files other_files : list string)
    (mentioned_fnames mentioned_idents : option (gset string)) : list RankedTag :=
  let ranked := ranked_tags chat_files other_files mentioned_fnames mentioned_idents in
  if exclude_unranked
  then filter (fun t => rank_is_zero t = false) ranked
  else ranked.

(** Modelled from the spec: step 5 of the renderer, "if [max_context_window]
    is supplied and no chat files are present, the effective token budget is
    derived from it rather than from [token_limit] directly". *)
Definition effective_budget (token_limit : Z) (max_context_window : option Z)
    (chat_files : list string) : Z :=
  match max_context_window, chat_files with
  | Some w, [] => window_budget w
  | _, _ => token_limit
  end.

(** Modelled from the spec: the token cost of a trial map of step 3, the
    rendering of the [k] best candidates measured by the token counter. *)
Definition trial_cost (token_counter : string -> Z) (cands : list RankedTag)
    (k : nat) : Z :=
  token_counter (render (take k cands)).

(** Modelled from the spec: step 3 of the renderer, a binary search over
    "how many top-ranked tags to include", measuring each trial map with the
    injected token counter and keeping the largest count seen to fit; at
    most [trials] trial maps are rendered. *)
Fixpoint token_fit_search (token_counter : string -> Z) (budget : Z)
    (cands : list RankedTag) (trials lo hi : nat) (best : option nat)
    : option nat :=
  match trials with
  | O => best
  | S trials' =>
      if (hi <? lo)%nat then best
      else
        let mid := ((lo + hi) / 2)%nat in
        if (trial_cost token_counter cands mid <=? budget)%Z
        then token_fit_search token_counter budget cands trials' (mid + 1) hi (Some mid)
        else token_fit_search token_counter budget cands trials' lo (mid - 1) best
  end.

(** Modelled from the spec: [generate_map] of section 6 with the failure
    policy of section 4.5: nothing ([None]) when there are no candidates,
    and the smallest non-empty rendering when no trial fits the budget. *)
Definition generate_map (self : RepoMapArgs) (chat_files other_files : list string)
    (mentioned_fnames mentioned_idents : option (gset string))
    (force_refresh : bool) : option string :=
  let cands := candidates (exclude_unranked self) chat_files other_files
                 mentioned_fnames mentioned_idents in
  match cands with
  | [] => None
  | _ :: _ =>
      let budget := effective_budget (default default_map_tokens (map_tokens self))
                      (max_context_window self) chat_files in
      match token_fit_search (token_counter_func self) budget cands max_trials
              1 (length cands) None with
      | Some k => Some (render (take k cands))
      | None => Some (render (take 1 cands))
      end
  end.

(** What the tag extractor and the context renderer give for a file. *)
Variable extract_tags : string -> string -> list Tag.t.
Variable render_context : string -> string -> list Z -> option string.

(** Modelled from the spec: the engine as the server sees it, built on the
    renderer above; an engine object is its constructor arguments. *)
Definition spec_engine : RepoMapClass := {|
  RepoMap := RepoMapArgs;
  RepoMap_init := fun args => Ok args;
  get_repo_map := fun self chat_files other_files mentioned_fnames
                      mentioned_idents force_refresh =>
    Ok (generate_map self chat_files other_files mentioned_fnames
          mentioned_idents force_refresh);
  get_tags := fun self fname rel_fname => Ok (extract_tags fname rel_fname, self);
  render_tree := fun self fname rel_fname lines =>
    Ok (render_context fname rel_fname lines, self)
|}.


End MapRenderer.

(** ** A small installation, for running the definitions *)

Module Demo.

Definition pathlib : Pathlib := {|
  resolve := fun f => f;
  relative_to := fun f root =>
    if Py.startswith f (root +:+ "/")
    then Ok (String.substring (S (String.length root))
               (String.length f - S (String.length root)) f)
    else Raise ("'" +:+ f +:+ "' is not in the subpath of '" +:+ root +:+ "'");
  path_div := Py.os_path_join
|}.

(** One token per character. *)
Definition utils : Utils := {|
  count_tokens := fun text _ => Z.of_nat (String.length text);
  read_text := fun _ => None
|}.

(** A project tree: two sources, a hidden file and two pruned directories. *)
Definition tree : fsnode :=
  Dir [ ("a.py", File);
        (".gitignore", File);
        (".git", Dir [("config", File)]);
        ("pkg", Dir [("b.py", File); ("env", Dir [("x.py", File)])]) ].

Definition fs : filesystem := fun p =>
  if bool_decide (p = "/srv/demo") then Some tree
  else if bool_decide (p = "/srv/empty") then Some (Dir [])
  else if bool_decide (p = "/home/u/.config/app") then Some (Dir [("main.py", File)])
  else if bool_decide (p = "/srv/demo/.gitignore") then Some File
  else None.

Definition config : ProjectConfig := {|
  config_projects := Some
    [ ("Demo", {[ "root" := "/srv/demo"; "description" := "demo" ]});
      ("empty", {[ "root" := "/srv/empty" ]});
      ("Broken", {[ "description" := "no root" ]}) ]
|}.

Definition tags_of (fname rel_fname : string) : list Tag.t :=
  if bool_decide (rel_fname = "a.py")
  then [ Tag.mk "a.py" 7 "foo" "ref"; Tag.mk "a.py" 3 "my_foo" "def" ]
  else if bool_decide (rel_fname = "pkg/b.py")
  then [ Tag.mk "pkg/b.py" 1 "Foo" "ref"; Tag.mk "pkg/b.py" 9 "bar" "def" ]
  else [].

(** A selection of ranked lines is rendered as their concatenation. *)
Definition render (sel : list string) : string := String.concat "" sel.

(** An engine that ranks nothing, extracts [tags_of] and renders every
    context as the file name. *)
Definition engine : RepoMapClass :=
  spec_engine (fun _ _ _ _ => []) (fun _ => false) render (fun w => w) 32 1024
    tags_of (fun _ rel_fname _ => Some rel_fname).

(** An engine that ranks one line per other file, the file's path. *)
Definition mapping_engine : RepoMapClass :=
  spec_engine (fun _ other _ _ => other) (fun _ => false) render (fun w => w)
    32 1024 tags_of (fun _ rel_fname _ => Some rel_fname).

End Demo.

(** ** Vocabulary of the statements *)

(** [p.split('/')]: the components of a POSIX path. *)
Fixpoint path_components (p : string) : list string :=
  match p with
  | EmptyString => [""]
  | String c p' =>
      if decide (c = "/"%char) then "" :: path_components p'
      else match path_components p' with
           | x :: xs => String c x :: xs
           | [] => [String c ""]
           end
  end.

(** A name the enumerator is meant to leave out when it is a directory. *)
Definition pruned_name (d : string) : Prop :=
  Py.startswith d "." = true ∨ d ∈ excluded_dirs.

(** No component of the whole path string is hidden or pruned. *)
Definition clean_path (p : string) : Prop :=
  let cs := path_components p in
  Forall (fun d => ¬ pruned_name d) (removelast cs)
  ∧ Py.startswith (List.last cs "") "." = false.

(** The tag a result entry was formatted from. *)
Definition tag_of_match (m : Match.t) : Tag.t :=
  Tag.mk (Match.file m) (Match.line m) (Match.name m) (Match.kind m).

(** Where the lowercased query starts in the lowercased identifier. *)
Definition match_position (query : string) (m : Match.t) : Z :=
  Py.find (Py.lower (Match.name m)) (Py.lower query).

(** The two fixed responses of [repo_map] under the ['map'] key. *)
Definition no_files_response : response :=
  {[ "map" := PStr "No files found to generate a map." ]}.

Definition no_map_response : response :=
  {[ "map" := PStr "No repository map could be generated." ]}.

(** [a] may stand before [b] in a list sorted by [key]: the key of [b] is
    not smaller than the key of [a]. *)
Definition key_ordered {A} (key : A → bool * Z) (a b : A) : Prop :=
  key_lt (key b) (key a) = false.

(** The order the specification words: an earlier position of the query
    first, and at equal position definitions before other matches. *)
Definition position_first_order (query : string) (results : list Match.t) : Prop :=
  ∀ i j a b, (i < j)%nat → results !! i = Some a → results !! j = Some b →
    (match_position query a ≤ match_position query b)%Z
    ∧ (match_position query a = match_position query b →
       Match.kind b = "def" → Match.kind a = "def").

(** ** [list_projects] *)

Module Project.
(** One entry of the ["projects"] list: the dict with keys [key], [root] and
    [description]. *)
Record t : Type := mk {
  key : string;
  root : string;
  description : string
}.
End Project.

Inductive listing_val : Type :=
| LStr (s : string)
| LProjects (ps : list Project.t).

(** Lines 209-213: the entry appended for one item of the registry. *)
Definition project_entry (item : string * gmap string string) : Project.t :=
  let '(project_key, project_details) := item in
  Project.mk project_key
    (default "" (project_details !! "root"))
    (default "No description provided." (project_details !! "description")).

(** Lines 194-218. Every registry value is a dict in this model, so the
    [except] branch of the listing loop is never taken. *)
Definition list_projects (project_config : option ProjectConfig)
    : gmap string listing_val :=
  match project_config with
  | None =>
      {[ "error" := LStr "Server not fully initialized. ProjectConfig is missing." ]}
  | Some project_config =>
      let projects_data :=
        project_entry <$> default [] (config_projects project_config) in
      {[ "projects" := LProjects projects_data ]}
  end.

(** ** Further vocabulary *)

(** A file named [f] lies below a directory through the chain [dirs] of
    sub-directories, every name on the way passing the filters of the
    enumerator. *)
Inductive reaches : fsnode → list string → string → Prop :=
| reaches_file es f :
    (f, File) ∈ es → keep_file f = true → reaches (Dir es) [] f
| reaches_dir es d sub dirs f :
    (d, sub) ∈ es → is_dir sub = true → keep_dir d = true →
    reaches sub dirs f → reaches (Dir es) (d :: dirs) f.

(** A file named [f] is an entry of the tree below a directory: [dirs] is
    the chain of sub-directory entries that leads to the directory holding
    it. No filter is involved. *)
Inductive below : fsnode → list string → string → Prop :=
| below_file es f :
    (f, File) ∈ es → below (Dir es) [] f
| below_dir es d sub dirs f :
    (d, sub) ∈ es → is_dir sub = true →
    below sub dirs f → below (Dir es) (d :: dirs) f.

(** No entry name starts with the path separator (names of a real file
    system contain none). *)
#[local] Unset Elimination Schemes.
Inductive names_ok : fsnode → Prop :=
| names_ok_file : names_ok File
| names_ok_dir es :
    Forall (fun e : string * fsnode =>
              Py.startswith e.1 "/" = false ∧ names_ok e.2) es →
    names_ok (Dir es).
#[local] Set Elimination Schemes.

(** Lines 298-300: the line numbers whose context is rendered for a tag. *)
Definition context_range (tag_line context_lines : Z) : list Z :=
  let start_line := Z.max 1 (tag_line - context_lines) in
  let end_line := (tag_line + context_lines)%Z in
  Py.range start_line (end_line + 1).

(** The kind test of lines 282-283 alone. *)
Definition kind_enabled (include_definitions include_references : bool)
    (tag : Tag.t) : Prop :=
  (Tag.kind tag = "def" ∧ include_definitions = true)
  ∨ (Tag.kind tag = "ref" ∧ include_references = true).

(** The constructor arguments of line 257-264. *)
Definition search_args {utils : Utils} (project_root : string) : RepoMapArgs :=
  {| map_tokens := None;
     root := project_root;
     token_counter_func := fun text => count_tokens text "gpt-4";
     file_reader_func := read_text;
     verbose := false;
     exclude_unranked := true;
     max_context_window := None |}.

Module DemoWindow.

(** An engine like [Demo.mapping_engine] whose budget without chat files is
    an eighth of the context window. *)
Definition engine : RepoMapClass :=
  spec_engine (fun _ other _ _ => other) (fun _ => false) Demo.render
    (fun w => (w / 8)%Z) 32 1024 Demo.tags_of
    (fun _ rel_fname _ => Some rel_fname).

End DemoWindow.

Module DemoFaults.

(** An engine whose tag extraction fails on one file. *)
Definition engine : RepoMapClass := {|
  RepoMap := unit;
  RepoMap_init := fun _ => Ok ();
  get_repo_map := fun _ _ _ _ _ _ => Ok None;
  get_tags := fun self fname rel_fname =>
    if bool_decide (rel_fname = "pkg/b.py") then Raise "cannot parse pkg/b.py"
    else Ok (Demo.tags_of fname rel_fname, self);
  render_tree := fun self _ rel_fname _ => Ok (Some rel_fname, self)
|}.

(** An engine whose constructor fails. *)
Definition broken_engine : RepoMapClass := {|
  RepoMap := unit;
  RepoMap_init := fun _ => Raise "bad root";
  get_repo_map := fun _ _ _ _ _ _ => Ok None;
  get_tags := fun self _ _ => Ok ([], self);
  render_tree := fun self _ _ _ => Ok (None, self)
|}.

End DemoFaults.

(** ** Strings *)

Lemma startswith_spec s p :
  Py.startswith s p = true ↔ ∃ rest, s = p +:+ rest.
Proof.
  revert s. induction p as [|a p IH]; intros s; simpl.
  - split; [intros _; by exists s | done].
  - destruct s as [|b s]; simpl.
    + split; [done | by intros [? ?]].
    + destruct (decide (a = b)) as [->|Hne].
      * rewrite IH. split; intros [rest Hr]; exists rest.
        -- by rewrite Hr.
        -- by injection Hr.
      * split; [done | intros [rest Hr]; injection Hr; congruence].
Qed.

Lemma str_in_spec sub s :
  Py.str_in sub s = true ↔ ∃ pre post, s = pre +:+ sub +:+ post.
Proof.
  induction s as [|c s IH]; simpl.
  - rewrite orb_false_r, startswith_spec. split.
    + intros [rest Hr]. by exists "", rest.
    + intros [pre [post Hp]]. destruct pre; simpl in Hp; [by exists post | done].
  - rewrite orb_true_iff, startswith_spec, IH. split.
    + intros [[rest Hr] | [pre [post Hp]]].
      * by exists "", rest.
      * exists (String c pre), post. simpl. by rewrite Hp.
    + intros [pre [post Hp]]. destruct pre as [|c' pre]; simpl in Hp.
      * left. by exists post.
      * right. exists pre, post. by injection Hp.
Qed.

Lemma find_from_spec i s sub :
  (Py.str_in sub s = false ∧ Py.find_from i s sub = (-1)%Z)
  ∨ (∃ pre post, s = pre +:+ sub +:+ post
       ∧ Py.find_from i s sub = (i + Z.of_nat (String.length pre))%Z
       ∧ ∀ pre' post', s = pre' +:+ sub +:+ post' →
           (String.length pre ≤ String.length pre')%nat).
Proof.
  revert i. induction s as [|c s IH]; intros i; simpl.
  - destruct (Py.startswith "" sub) eqn:Hs; simpl.
    + right. apply startswith_spec in Hs as [rest Hr].
      exists "", rest. simpl. split_and!; [done | lia | intros; lia].
    + by left.
  - destruct (Py.startswith (String c s) sub) eqn:Hs; simpl.
    + right. apply startswith_spec in Hs as [rest Hr].
      exists "", rest. simpl. split_and!; [done | lia | intros; lia].
    + destruct (IH (i + 1)%Z) as [[Hin Hf] | (pre & post & Hp & Hf & Hmin)].
      * by left.
      * right. exists (String c pre), post. simpl. split_and!.
        -- by rewrite Hp.
        -- rewrite Hf. lia.
        -- intros pre' post' Hp'. destruct pre' as [|c' pre']; simpl in Hp'.
           ++ assert (Py.startswith (String c s) sub = true) as Ht
                by (apply startswith_spec; by exists post').
              congruence.
           ++ injection Hp' as _ Hp'. specialize (Hmin _ _ Hp'). simpl. lia.
Qed.

Lemma find_nonneg_iff s sub :
  (0 ≤ Py.find s sub)%Z ↔ Py.str_in sub s = true.
Proof.
  unfold Py.find.
  destruct (find_from_spec 0 s sub) as [[Hin Hf] | (pre & post & Hp & Hf & _)].
  - rewrite Hin, Hf. split; [lia | done].
  - rewrite Hf. split; [intros _ | lia].
    apply str_in_spec. by exists pre, post.
Qed.

(** ** The file enumerator *)

Lemma fsnode_ind (P : fsnode → Prop) :
  P File → (∀ es, Forall (fun e => P e.2) es → P (Dir es)) → ∀ n, P n.
Proof.
  intros HF HD. fix IH 1. intros [|es]; [exact HF|].
  apply HD. induction es as [|[d sub] es IHes]; constructor.
  - apply IH.
  - apply IHes.
Qed.

Lemma walk_Dir r es :
  walk r (Dir es) =
    (Py.os_path_join r <$> filter (fun f => keep_file f = true) (file_names es)) ++
    mjoin ((fun e : string * fsnode =>
               if is_dir e.2 && keep_dir e.1
               then walk (Py.os_path_join r e.1) e.2 else []) <$> es).
Proof.
  simpl. f_equal. induction es as [|[d sub] es IH]; [done|].
  simpl. by rewrite IH.
Qed.

Lemma keep_dir_spec d :
  keep_dir d = true ↔ Py.startswith d "." = false ∧ d ∉ excluded_dirs.
Proof.
  unfold keep_dir. rewrite andb_true_iff, negb_true_iff, bool_decide_eq_true. done.
Qed.

(** C6 (as stated) fails: the scan of a project kept under a hidden directory
    returns paths with a component that starts with ['.']. *)
Lemma find_src_files_hidden_root :
  ¬ (∀ fs directory p, p ∈ find_src_files fs directory → clean_path p).
Proof.
  intros Hclaim.
  destruct (Hclaim Demo.fs "/home/u/.config/app" "/home/u/.config/app/main.py")
    as [Hdirs _].
  - vm_compute. apply list_elem_of_here.
  - vm_compute in Hdirs.
    apply Forall_cons_1 in Hdirs as [_ Hdirs].
    apply Forall_cons_1 in Hdirs as [_ Hdirs].
    apply Forall_cons_1 in Hdirs as [_ Hdirs].
    apply Forall_cons_1 in Hdirs as [Hcfg _].
    apply Hcfg. by left.
Qed.

(** ** The project registry *)

Lemma first_project_root_no_match projects project_name :
  (∀ key d, (key, d) ∈ projects → Py.lower key ≠ Py.lower project_name) →
  first_project_root projects project_name = "".
Proof.
  induction projects as [|[key d] projects IH]; intros Hno; simpl; [done|].
  rewrite bool_decide_eq_false_2.
  - apply IH. intros k' d' Hin. apply (Hno k' d'). by right.
  - apply (Hno key d). by left.
Qed.

Lemma first_project_root_first pre key d post project_name :
  Py.lower key = Py.lower project_name →
  (∀ k' d', (k', d') ∈ pre → Py.lower k' ≠ Py.lower project_name) →
  first_project_root (pre ++ (key, d) :: post) project_name
  = default "" (d !! "root").
Proof.
  intros Hkey. induction pre as [|[k' d'] pre IH]; intros Hpre; simpl.
  - by rewrite bool_decide_eq_true_2.
  - rewrite bool_decide_eq_false_2.
    + apply IH. intros k'' d'' Hin. apply (Hpre k'' d''). by right.
    + apply (Hpre k' d'). by left.
Qed.

Lemma first_project_root_lower projects name1 name2 :
  Py.lower name1 = Py.lower name2 →
  first_project_root projects name1 = first_project_root projects name2.
Proof.
  intros Heq. induction projects as [|[key d] projects IH]; simpl; [done|].
  by rewrite Heq, IH.
Qed.

(** C10. [get_project_root] returns [""] when no configured key equals the
    name ignoring case; otherwise it returns the ['root'] value ([""] when
    the entry has none) of the first configured project whose key equals the
    name ignoring case; so two names that differ only in letter case resolve
    to the same root. *)
Theorem get_project_root_case_insensitive (cfg : ProjectConfig)
    (project_name : string) :
  let projects := default [] (config_projects cfg) in
  ((∀ key d, (key, d) ∈ projects → Py.lower key ≠ Py.lower project_name) →
   get_project_root cfg project_name = "")
  ∧ (∀ pre key d post,
       projects = pre ++ (key, d) :: post →
       Py.lower key = Py.lower project_name →
       (∀ k' d', (k', d') ∈ pre → Py.lower k' ≠ Py.lower project_name) →
       get_project_root cfg project_name = default "" (d !! "root"))
  ∧ (∀ other_name,
       Py.lower other_name = Py.lower project_name →
       get_project_root cfg other_name = get_project_root cfg project_name).
Proof.
  intros projects. unfold get_project_root. fold projects. split_and!.
  - apply first_project_root_no_match.
  - intros pre key d post -> Hkey Hpre. by apply first_project_root_first.
  - intros other_name Heq. by apply first_project_root_lower.
Qed.

(** ** [repo_map] *)

Section RepoMapProperties.
Context {pathlib : Pathlib} {utils : Utils} {engine : RepoMapClass}.

Lemma truthy_str_false s : Py.truthy_str s = false ↔ s = "".
Proof. unfold Py.truthy_str. rewrite negb_false_iff, bool_decide_eq_true. done. Qed.

Lemma truthy_list_false {A} (l : list A) : Py.truthy_list l = false ↔ l = [].
Proof. by destruct l. Qed.

Lemma str_or_not_empty x d : d ≠ "" → Py.str_or x d ≠ "".
Proof.
  intros Hd. unfold Py.str_or. destruct x as [s|]; [|done].
  destruct (Py.truthy_str s) eqn:Hs; [|done].
  intros ->. done.
Qed.

Lemma run_engine_map_not_empty c : run_engine c !! "map" ≠ Some (PStr "").
Proof.
  unfold run_engine. destruct (RepoMap_init _) as [m|e]; [|done].
  destruct (get_repo_map _ _ _ _ _ _) as [x|e]; [|done].
  rewrite lookup_singleton_eq. intros [= Hx]. by apply str_or_not_empty in Hx.
Qed.

(** C8. When the registry gives an empty root for [project_name], both
    tools return the dictionary [{"error": "Project '<name>' not found in
    projects.json"}]: [repo_map] returns before it builds any engine call,
    [search_identifiers] before its [try] block, and the message contains
    the project name. *)
Theorem unknown_project_error (cfg : ProjectConfig) (fs : filesystem)
    (project_name : string) (chat_files other_files : option (list string))
    (token_limit : Z) (exclude_unranked force_refresh : bool)
    (mentioned_files mentioned_idents : option (list string)) (verbose : bool)
    (max_context_window : option Z) (query : string)
    (max_results context_lines : Z)
    (include_definitions include_references : bool) :
  get_project_root cfg project_name = "" →
  let message := "Project '" +:+ project_name +:+ "' not found in projects.json" in
  repo_map_request (Some cfg) fs project_name chat_files other_files token_limit
    exclude_unranked force_refresh mentioned_files mentioned_idents verbose
    max_context_window = inl {[ "error" := PStr message ]}
  ∧ repo_map (Some cfg) fs project_name chat_files other_files token_limit
      exclude_unranked force_refresh mentioned_files mentioned_idents verbose
      max_context_window = {[ "error" := PStr message ]}
  ∧ search_identifiers (Some cfg) fs project_name query max_results
      context_lines include_definitions include_references
    = {[ "error" := PStr message ]}
  ∧ Py.str_in project_name message = true.
Proof.
  intros Hroot message. split_and!.
  - unfold repo_map_request. by rewrite Hroot.
  - unfold repo_map, repo_map_request. by rewrite Hroot.
  - unfold search_identifiers. by rewrite Hroot.
  - apply str_in_spec. by exists "Project '", "' not found in projects.json".
Qed.

(** C9. [repo_map] never returns an empty string under the ['map'] key:
    with no chat files and no effective other files it returns ["No files
    found to generate a map."], and when the engine yields [None] or [""]
    it returns ["No repository map could be generated."]. *)
Theorem repo_map_never_empty_map (project_config : option ProjectConfig)
    (fs : filesystem) (project_name : string)
    (chat_files other_files : option (list string)) (token_limit : Z)
    (exclude_unranked force_refresh : bool)
    (mentioned_files mentioned_idents : option (list string)) (verbose : bool)
    (max_context_window : option Z) :
  let result := repo_map project_config fs project_name chat_files other_files
                  token_limit exclude_unranked force_refresh mentioned_files
                  mentioned_idents verbose max_context_window in
  result !! "map" ≠ Some (PStr "")
  ∧ (∀ cfg,
       project_config = Some cfg →
       get_project_root cfg project_name ≠ "" →
       default [] chat_files = [] →
       effective_other_files fs (get_project_root cfg project_name) other_files = [] →
       result = no_files_response)
  ∧ (∀ c repo_mapper map_content,
       repo_map_request project_config fs project_name chat_files other_files
         token_limit exclude_unranked force_refresh mentioned_files
         mentioned_idents verbose max_context_window = inr c →
       RepoMap_init (call_args c) = Ok repo_mapper →
       get_repo_map repo_mapper (call_chat_files c) (call_other_files c)
         (call_mentioned_fnames c) (call_mentioned_idents c)
         (call_force_refresh c) = Ok map_content →
       map_content = None ∨ map_content = Some "" →
       result = no_map_response).
Proof.
  intros result. subst result. unfold repo_map. split_and!.
  - destruct (repo_map_request _ _ _ _ _ _ _ _ _ _ _ _) as [early|c] eqn:Hreq;
      [|apply run_engine_map_not_empty].
    unfold repo_map_request in Hreq.
    destruct project_config as [cfg|]; [|by injection Hreq as <-].
    destruct (negb (Py.truthy_str _)); [by injection Hreq as <-|].
    destruct (negb _ && negb _); [by injection Hreq as <-|done].
  - intros cfg -> Hroot Hchat Hother. unfold repo_map_request. cbv zeta.
    assert (Py.truthy_str (get_project_root cfg project_name) = true) as ->.
    { destruct (Py.truthy_str _) eqn:E; [done | by apply truthy_str_false in E]. }
    by rewrite Hchat, Hother.
  - intros c repo_mapper map_content -> Hinit Hmap Hempty.
    unfold run_engine. rewrite Hinit, Hmap.
    by destruct Hempty as [-> | ->].
Qed.

Lemma repo_map_request_call (cfg : ProjectConfig) (fs : filesystem)
    (project_name : string) (chat_files other_files : option (list string))
    (limit : Z) (unranked refresh : bool)
    (mentioned_files mentioned_idents : option (list string)) (verb : bool)
    (window : option Z) (c : engine_call) :
  repo_map_request (Some cfg) fs project_name chat_files other_files limit
    unranked refresh mentioned_files mentioned_idents verb window = inr c →
  let project_root := get_project_root cfg project_name in
  let others := effective_other_files fs project_root other_files in
  project_root ≠ ""
  ∧ ¬ (default [] chat_files = [] ∧ others = [])
  ∧ call_chat_files c = resolve <$> default [] chat_files
  ∧ call_other_files c
    = filter (fun f => f ∉ (list_to_set (call_chat_files c) : gset string))
        (resolve <$> others)
  ∧ map_tokens (call_args c) = Some limit
  ∧ max_context_window (call_args c) = window
  ∧ token_counter_func (call_args c) = (fun text => count_tokens text "gpt-4")
  ∧ exclude_unranked (call_args c) = unranked.
Proof.
  unfold repo_map_request. cbv zeta.
  destruct (Py.truthy_str (get_project_root cfg project_name)) eqn:Hroot;
    [|done]. cbn [negb].
  destruct (negb (Py.truthy_list (default [] chat_files))
            && negb (Py.truthy_list (effective_other_files fs _ other_files)))
    eqn:Hnone; [done|].
  intros [= <-]. cbn. split_and!; try done.
  - intros Hr. apply truthy_str_false in Hr. congruence.
  - intros [Hc Ho]. rewrite Hc, Ho in Hnone. done.
Qed.

(** C7. The [other_files] list handed to the engine is disjoint from the
    chat files handed to it: the chat files are the resolved [chat_files],
    and the other files are the resolved effective other files without
    those that are also a resolved chat file, so a file given in both lists
    is kept as a chat file only. *)
Theorem other_files_disjoint_from_chat (cfg : ProjectConfig) (fs : filesystem)
    (project_name : string) (chat_files other_files : option (list string))
    (token_limit : Z) (exclude_unranked force_refresh : bool)
    (mentioned_files mentioned_idents : option (list string)) (verbose : bool)
    (max_context_window : option Z) (c : engine_call) :
  repo_map_request (Some cfg) fs project_name chat_files other_files token_limit
    exclude_unranked force_refresh mentioned_files mentioned_idents verbose
    max_context_window = inr c →
  let others :=
    effective_other_files fs (get_project_root cfg project_name) other_files in
  call_chat_files c = resolve <$> default [] chat_files
  ∧ (∀ f, f ∈ call_other_files c ↔
          f ∈ resolve <$> others ∧ f ∉ call_chat_files c)
  ∧ (∀ f, f ∈ call_chat_files c → f ∉ call_other_files c)
  ∧ repo_map (Some cfg) fs project_name chat_files other_files token_limit
      exclude_unranked force_refresh mentioned_files mentioned_idents verbose
      max_context_window = run_engine c.
Proof.
  intros Hreq others.
  destruct (repo_map_request_call _ _ _ _ _ _ _ _ _ _ _ _ _ Hreq)
    as (_ & _ & Hchat & Hother & _).
  assert (∀ f, f ∈ call_other_files c ↔
               f ∈ resolve <$> others ∧ f ∉ call_chat_files c) as Hiff.
  { intros f. rewrite Hother, list_elem_of_filter, elem_of_list_to_set.
    subst others. tauto. }
  split_and!; [done | done | |].
  - intros f Hf Hin. apply Hiff in Hin as [_ Hin]. done.
  - unfold repo_map. by rewrite Hreq.
Qed.

(** C3 (as amended). For a project the registry knows, [repo_map] returns
    the "No files found to generate a map." response, before any engine
    call, exactly when there are no chat files and no effective other files,
    where the effective other files are the given [other_files] or, when
    that list is empty or absent, the scan of the project root. With
    [chat_files=[]] and [other_files=[]] this is the case exactly when the
    scan of the project root finds nothing. *)
Theorem repo_map_no_files (cfg : ProjectConfig) (fs : filesystem)
    (project_name : string) (chat_files other_files : option (list string))
    (token_limit : Z) (exclude_unranked force_refresh : bool)
    (mentioned_files mentioned_idents : option (list string)) (verbose : bool)
    (max_context_window : option Z) :
  get_project_root cfg project_name ≠ "" →
  let project_root := get_project_root cfg project_name in
  let request := repo_map_request (Some cfg) fs project_name chat_files
                   other_files token_limit exclude_unranked force_refresh
                   mentioned_files mentioned_idents verbose max_context_window in
  (request = inl no_files_response ↔
     default [] chat_files = []
     ∧ effective_other_files fs project_root other_files = [])
  ∧ (request = inl no_files_response →
     repo_map (Some cfg) fs project_name chat_files other_files token_limit
       exclude_unranked force_refresh mentioned_files mentioned_idents verbose
       max_context_window = no_files_response)
  ∧ (other_files = Some [] ∨ other_files = None →
     effective_other_files fs project_root other_files
     = find_src_files fs project_root).
Proof.
  intros Hroot project_root request. split_and!.
  - subst request. unfold repo_map_request. cbv zeta. fold project_root.
    assert (Py.truthy_str project_root = true) as ->.
    { destruct (Py.truthy_str _) eqn:E; [done | by apply truthy_str_false in E]. }
    cbn [negb].
    destruct (default [] chat_files) as [|f l];
      destruct (effective_other_files fs project_root other_files) as [|g k];
      cbn; split; try done; try (by intros [? ?]).
  - intros Hreq. unfold repo_map. fold request. by rewrite Hreq.
  - by intros [-> | ->].
Qed.

End RepoMapProperties.

(** ** Sorting by key *)

Section Sorting.
Context {A : Type} (key : A → bool * Z).

Lemma key_lt_false_iff (x y : bool * Z) :
  key_lt x y = false ↔
  (y.1 = true → x.1 = true) ∧ (x.1 = y.1 → (y.2 ≤ x.2)%Z).
Proof.
  destruct x as [[] xp], y as [[] yp]; unfold key_lt; simpl;
    rewrite ?Z.ltb_ge; try (rewrite Z.ltb_nlt); intuition (try done; lia).
Qed.

Lemma key_ordered_trans a b c : (key_ordered key) a b → (key_ordered key) b c → (key_ordered key) a c.
Proof.
  unfold key_ordered. rewrite !key_lt_false_iff.
  destruct (key a) as [[] ?], (key b) as [[] ?], (key c) as [[] ?]; simpl;
    intuition (try done; lia).
Qed.

Lemma key_ordered_of_lt a b : key_lt (key a) (key b) = true → (key_ordered key) a b.
Proof.
  unfold key_ordered. intros Hlt. apply key_lt_false_iff.
  destruct (key a) as [[] ?], (key b) as [[] ?]; unfold key_lt in Hlt; simpl in *;
    try done; rewrite ?Z.ltb_lt in Hlt; intuition (try done; lia).
Qed.

Lemma sort_insert_perm x l : sort_insert key x l ≡ₚ x :: l.
Proof.
  induction l as [|y l IH]; simpl; [done|].
  destruct (key_lt (key x) (key y)); [done|].
  rewrite IH. apply Permutation_swap.
Qed.

Lemma sort_insert_sorted x l :
  StronglySorted (key_ordered key) l → StronglySorted (key_ordered key) (sort_insert key x l).
Proof.
  induction l as [|y l IH]; simpl; intros Hs.
  - repeat constructor.
  - apply StronglySorted_cons in Hs as [Hy Hl].
    destruct (key_lt (key x) (key y)) eqn:Hlt.
    + apply StronglySorted_cons. split; [|by apply StronglySorted_cons].
      apply key_ordered_of_lt in Hlt. constructor; [done|].
      eapply Forall_impl; [exact Hy|]. intros z Hz.
      by eapply key_ordered_trans.
    + apply StronglySorted_cons. split; [|by apply IH].
      rewrite sort_insert_perm. by constructor.
Qed.

Lemma foldl_insert_sorted l : ∀ acc,
  StronglySorted (key_ordered key) acc →
  StronglySorted (key_ordered key) (foldl (fun sorted x => sort_insert key x sorted) acc l)
  ∧ foldl (fun sorted x => sort_insert key x sorted) acc l ≡ₚ acc ++ l.
Proof.
  induction l as [|x l IH]; intros acc Hacc; simpl.
  - by rewrite app_nil_r.
  - destruct (IH (sort_insert key x acc)) as [Hs Hp];
      [by apply sort_insert_sorted|].
    split; [done|]. rewrite Hp, sort_insert_perm. simpl.
    apply Permutation_middle.
Qed.

Lemma list_sort_sorted l : StronglySorted (key_ordered key) (list_sort key l).
Proof. apply foldl_insert_sorted. constructor. Qed.

Lemma list_sort_perm l : list_sort key l ≡ₚ l.
Proof.
  unfold list_sort. destruct (foldl_insert_sorted l []) as [_ Hp]; [constructor|].
  by rewrite Hp.
Qed.

End Sorting.

Lemma StronglySorted_sublist {A} (R : relation A) (k l : list A) :
  k `sublist_of` l → StronglySorted R l → StronglySorted R k.
Proof.
  induction 1 as [|x k l Hsub IH|x k l Hsub IH]; intros Hs; [done | |].
  - apply StronglySorted_cons in Hs as [Hx Hl].
    apply StronglySorted_cons. split; [|by apply IH].
    apply Forall_forall. intros y Hy. rewrite Forall_forall in Hx.
    apply Hx. by eapply elem_of_sublist.
  - apply StronglySorted_cons in Hs as [_ Hl]. by apply IH.
Qed.

Lemma StronglySorted_lookup {A} (R : relation A) (l : list A) i j a b :
  StronglySorted R l → (i < j)%nat → l !! i = Some a → l !! j = Some b → R a b.
Proof.
  intros Hs. revert i j. induction Hs as [|x l Hl IH Hx]; intros i j Hij Hi Hj;
    [done|].
  destruct j as [|j]; [lia|]. simpl in Hj. destruct i as [|i]; simpl in Hi.
  - injection Hi as ->. rewrite Forall_forall in Hx. apply Hx.
    by eapply list_elem_of_lookup_2.
  - apply (IH i j); [lia | done | done].
Qed.

(** ** [search_identifiers] *)

Section SearchProperties.
Context {pathlib : Pathlib} {utils : Utils} {engine : RepoMapClass}.

Lemma tag_matches_spec query_lower include_definitions include_references tag :
  tag_matches query_lower include_definitions include_references tag = true ↔
  (∃ pre post, Py.lower (Tag.name tag) = pre +:+ query_lower +:+ post)
  ∧ ((Tag.kind tag = "def" ∧ include_definitions = true)
     ∨ (Tag.kind tag = "ref" ∧ include_references = true)).
Proof.
  unfold tag_matches.
  rewrite andb_true_iff, orb_true_iff, !andb_true_iff, !bool_decide_eq_true.
  by rewrite str_in_spec.
Qed.

(** C4. A tag occurrence is selected as a match exactly when the lowercased
    query is a substring of the tag's lowercased name and the tag is a
    definition with [include_definitions] set or a reference with
    [include_references] set. *)
Theorem filter_tags_spec (query : string)
    (include_definitions include_references : bool)
    (all_tags : list Tag.t) (tag : Tag.t) :
  tag ∈ filter_tags query include_definitions include_references all_tags ↔
  tag ∈ all_tags
  ∧ (∃ pre post, Py.lower (Tag.name tag) = pre +:+ Py.lower query +:+ post)
  ∧ ((Tag.kind tag = "def" ∧ include_definitions = true)
     ∨ (Tag.kind tag = "ref" ∧ include_references = true)).
Proof.
  unfold filter_tags. rewrite list_elem_of_filter, tag_matches_spec. tauto.
Qed.

Lemma format_results_sublist project_root context_lines matching_tags :
  ∀ repo results repo',
    format_results repo project_root context_lines matching_tags
    = Ok (results, repo') →
    tag_of_match <$> results `sublist_of` matching_tags.
Proof.
  induction matching_tags as [|tag rest IH]; intros repo results repo' Hf.
  - injection Hf as <- _. constructor.
  - simpl in Hf.
    destruct (render_tree _ _ _ _) as [[context repo1]|e]; [|done].
    simpl in Hf.
    destruct (format_results repo1 _ _ rest) as [[more repo2]|e] eqn:Hrest;
      [|done].
    injection Hf as <- _. specialize (IH _ _ _ Hrest).
    destruct context as [context|]; [|by constructor].
    destruct (Py.truthy_str context); [|by constructor].
    destruct tag. by constructor.
Qed.

(** What a successful search has done: it built an engine, collected the
    tags of the project's source files, and formatted the limited, sorted
    matches. *)
Lemma search_results_inv (project_config : option ProjectConfig)
    (fs : filesystem) (project_name query : string)
    (max_results context_lines : Z)
    (include_definitions include_references : bool) (results : list Match.t) :
  search_identifiers project_config fs project_name query max_results
    context_lines include_definitions include_references !! "results"
  = Some (PMatches results) →
  ∃ cfg repo all_tags repo1 repo2,
    project_config = Some cfg
    ∧ collect_tags repo (get_project_root cfg project_name)
        (find_src_files fs (get_project_root cfg project_name))
      = Ok (all_tags, repo1)
    ∧ format_results repo1 (get_project_root cfg project_name) context_lines
        (limited_matches query max_results include_definitions
           include_references all_tags)
      = Ok (results, repo2).
Proof.
  unfold search_identifiers. destruct project_config as [cfg|]; [|done].
  destruct (negb (Py.truthy_str _)); [done|].
  unfold search_body.
  destruct (RepoMap_init _) as [repo|e]; [|done]. simpl.
  destruct (collect_tags repo _ _) as [[all_tags repo1]|e] eqn:Hc; [|done].
  simpl.
  destruct (format_results repo1 _ _ _) as [[rs repo2]|e] eqn:Hf; [|done].
  simpl. rewrite lookup_singleton_eq. intros [= <-].
  by exists cfg, repo, all_tags, repo1, repo2.
Qed.

Lemma sorted_matches_sorted query include_definitions include_references all_tags :
  StronglySorted (key_ordered (sort_key (Py.lower query)))
    (sorted_matches query include_definitions include_references all_tags).
Proof. apply list_sort_sorted. Qed.

Lemma slice_to_prefix {A} (n : Z) (l : list A) : Py.slice_to n l `prefix_of` l.
Proof. unfold Py.slice_to. destruct (0 <=? n)%Z; apply prefix_take. Qed.

Lemma prefix_sublist {A} (k l : list A) : k `prefix_of` l → k `sublist_of` l.
Proof. intros [m ->]. by apply sublist_inserts_r. Qed.

(** C2 (as amended). The returned matches are ordered with every
    definition-kind match before every match of another kind, and, among
    matches that are both definitions or both not, the one whose lowercased
    name contains the lowercased query at an earlier position first. *)
Theorem search_results_order (project_config : option ProjectConfig)
    (fs : filesystem) (project_name query : string)
    (max_results context_lines : Z)
    (include_definitions include_references : bool) (results : list Match.t) :
  search_identifiers project_config fs project_name query max_results
    context_lines include_definitions include_references !! "results"
  = Some (PMatches results) →
  ∀ i j a b, (i < j)%nat → results !! i = Some a → results !! j = Some b →
    (Match.kind b = "def" → Match.kind a = "def")
    ∧ ((Match.kind a = "def" ↔ Match.kind b = "def") →
       (match_position query a ≤ match_position query b)%Z).
Proof.
  intros Hsearch i j a b Hij Ha Hb.
  apply search_results_inv in Hsearch
    as (cfg & repo & all_tags & repo1 & repo2 & _ & _ & Hf).
  apply format_results_sublist in Hf.
  assert (StronglySorted (key_ordered (sort_key (Py.lower query)))
            (tag_of_match <$> results)) as Hs.
  { eapply StronglySorted_sublist; [exact Hf|].
    eapply StronglySorted_sublist; [|apply sorted_matches_sorted].
    apply prefix_sublist, slice_to_prefix. }
  assert (key_ordered (sort_key (Py.lower query)) (tag_of_match a) (tag_of_match b))
    as Hab.
  { apply (StronglySorted_lookup _ (tag_of_match <$> results) i j); [done | done | |];
      by rewrite list_lookup_fmap, ?Ha, ?Hb. }
  unfold key_ordered in Hab. apply key_lt_false_iff in Hab as [Hkind Hpos].
  unfold sort_key, match_position in *. simpl in *. split.
  - intros Hbdef. destruct (decide (Match.kind a = "def")) as [|Hna]; [done|].
    rewrite (bool_decide_eq_true_2 _ Hbdef), (bool_decide_eq_false_2 _ Hna) in Hkind.
    by specialize (Hkind eq_refl).
  - intros Hsame. apply Hpos.
    destruct (decide (Match.kind a = "def")) as [Hda|Hna].
    + by rewrite !bool_decide_eq_true_2 by tauto.
    + by rewrite !bool_decide_eq_false_2 by tauto.
Qed.

Lemma search_results_run (project_config : option ProjectConfig)
    (fs : filesystem) (project_name query : string)
    (max_results context_lines : Z)
    (include_definitions include_references : bool) (results : list Match.t) :
  search_identifiers project_config fs project_name query max_results
    context_lines include_definitions include_references !! "results"
  = Some (PMatches results) →
  ∃ cfg repo all_tags repo1 repo2,
    project_config = Some cfg
    ∧ get_project_root cfg project_name ≠ ""
    ∧ RepoMap_init (search_args (get_project_root cfg project_name)) = Ok repo
    ∧ collect_tags repo (get_project_root cfg project_name)
        (find_src_files fs (get_project_root cfg project_name))
      = Ok (all_tags, repo1)
    ∧ format_results repo1 (get_project_root cfg project_name) context_lines
        (limited_matches query max_results include_definitions
           include_references all_tags)
      = Ok (results, repo2).
Proof.
  unfold search_identifiers. destruct project_config as [cfg|]; [|done].
  destruct (Py.truthy_str (get_project_root cfg project_name)) eqn:Hroot;
    [|done]. cbn [negb].
  unfold search_body. fold (search_args (get_project_root cfg project_name)).
  destruct (RepoMap_init _) as [repo|e] eqn:Hinit; [|done]. simpl.
  destruct (collect_tags repo _ _) as [[all_tags repo1]|e] eqn:Hc; [|done].
  simpl.
  destruct (format_results repo1 _ _ _) as [[rs repo2]|e] eqn:Hf; [|done].
  simpl. rewrite lookup_singleton_eq. intros [= <-].
  exists cfg, repo, all_tags, repo1, repo2. split_and!; try done.
  intros Hempty. apply truthy_str_false in Hempty. congruence.
Qed.

(** C5 (as amended). In every search that returns results, the tags
    collected from all source files of the project are filtered, the
    complete set of matching tags is sorted, and only then is the sorted
    list cut by [matching_tags[:max_results]]: the list that is formatted
    into the results is that cut, a prefix of the fully sorted match set.
    For [max_results >= 0] the cut is the first [max_results] elements, so
    at most [max_results] results are returned; the returned entries are, in
    order, those of the cut whose rendered context is not empty. *)
Theorem search_results_truncated (project_config : option ProjectConfig)
    (fs : filesystem) (project_name query : string)
    (max_results context_lines : Z)
    (include_definitions include_references : bool) (results : list Match.t) :
  search_identifiers project_config fs project_name query max_results
    context_lines include_definitions include_references !! "results"
  = Some (PMatches results) →
  ∃ cfg repo all_tags repo1 repo2,
    let project_root := get_project_root cfg project_name in
    let matching := filter_tags query include_definitions include_references
                      all_tags in
    let sorted := list_sort (sort_key (Py.lower query)) matching in
    let limited := Py.slice_to max_results sorted in
    project_config = Some cfg
    ∧ RepoMap_init (search_args project_root) = Ok repo
    ∧ collect_tags repo project_root (find_src_files fs project_root)
      = Ok (all_tags, repo1)
    ∧ sorted ≡ₚ matching
    ∧ StronglySorted (key_ordered (sort_key (Py.lower query))) sorted
    ∧ limited `prefix_of` sorted
    ∧ format_results repo1 project_root context_lines limited
      = Ok (results, repo2)
    ∧ tag_of_match <$> results `sublist_of` limited
    ∧ ((0 ≤ max_results)%Z →
       limited = take (Z.to_nat max_results) sorted
       ∧ (Z.of_nat (length results) ≤ max_results)%Z).
Proof.
  intros Hsearch.
  apply search_results_run in Hsearch
    as (cfg & repo & all_tags & repo1 & repo2 & Hcfg & _ & Hinit & Hcollect & Hf).
  exists cfg, repo, all_tags, repo1, repo2.
  pose proof (format_results_sublist _ _ _ _ _ _ Hf) as Hsub.
  split_and!; try done.
  - apply list_sort_perm.
  - apply list_sort_sorted.
  - apply slice_to_prefix.
  - intros Hmax.
    assert (Py.slice_to max_results
              (list_sort (sort_key (Py.lower query))
                 (filter_tags query include_definitions include_references
                    all_tags))
            = take (Z.to_nat max_results)
                (list_sort (sort_key (Py.lower query))
                   (filter_tags query include_definitions include_references
                      all_tags))) as Hlim.
    { unfold Py.slice_to. by rewrite (proj2 (Z.leb_le 0 max_results) Hmax). }
    split; [done|].
    apply sublist_length in Hsub.
    unfold limited_matches, sorted_matches in Hsub.
    rewrite length_fmap, Hlim, length_take in Hsub. lia.
Qed.

End SearchProperties.

(** ** The token budget *)

Section TokenBudget.
Context {pathlib : Pathlib} {utils : Utils} {RankedTag : Type}.
Variable ranked_tags :
  list string → list string → option (gset string) → option (gset string) →
  list RankedTag.
Variable rank_is_zero : RankedTag → bool.
Variable render : list RankedTag → string.
Variable window_budget : Z → Z.
Variable max_trials : nat.
Variable default_map_tokens : Z.
Variable extract_tags : string → string → list Tag.t.
Variable render_context : string → string → list Z → option string.

Lemma token_fit_search_step token_counter budget cands trials lo hi best :
  token_fit_search render token_counter budget cands (S trials) lo hi best =
    if (hi <? lo)%nat then best
    else if (trial_cost render token_counter cands ((lo + hi) / 2) <=? budget)%Z
         then token_fit_search render token_counter budget cands trials
                ((lo + hi) / 2 + 1) hi (Some ((lo + hi) / 2)%nat)
         else token_fit_search render token_counter budget cands trials
                lo ((lo + hi) / 2 - 1) best.
Proof. reflexivity. Qed.


Lemma token_fit_search_keeps_best token_counter budget cands trials :
  ∀ lo hi b, token_fit_search render token_counter budget cands trials lo hi (Some b)
             ≠ None.
Proof.
  induction trials as [|trials IH]; intros lo hi b; [done|].
  rewrite token_fit_search_step.
  destruct (hi <? lo)%nat; [done|].
  destruct (_ <=? budget)%Z; apply IH.
Qed.

(** With as many trials as candidates the search does not give up early:
    it finds nothing only when the single best tag already exceeds the
    budget. *)
Lemma token_fit_search_none token_counter budget cands trials :
  ∀ hi, (1 ≤ hi ≤ trials)%nat →
    token_fit_search render token_counter budget cands trials 1 hi None = None →
    (budget < trial_cost render token_counter cands 1)%Z.
Proof.
  induction trials as [|trials IH]; intros hi Hhi; [lia|].
  rewrite token_fit_search_step.
  destruct (hi <? 1)%nat eqn:Hlt; [apply Nat.ltb_lt in Hlt; lia|].
  assert (1 ≤ (1 + hi) / 2 ≤ hi)%nat as Hmid.
  { split; [apply Nat.div_le_lower_bound; lia
           | apply Nat.Div0.div_le_upper_bound; lia]. }
  destruct (_ <=? budget)%Z eqn:Hfit.
  - intros Hnone. by apply token_fit_search_keeps_best in Hnone.
  - apply Z.leb_gt in Hfit.
    destruct (decide ((1 + hi) / 2 = 1)%nat) as [Hone|Hmore].
    + intros _. by rewrite Hone in Hfit.
    + apply IH. lia.
Qed.



End TokenBudget.

(** ** The statements on the small installation *)

Section DemoRuns.
#[local] Existing Instance Demo.pathlib.
#[local] Existing Instance Demo.utils.



(** C2 (as stated) fails: the first match returned for the query [foo] is
    the definition [my_foo], where the query starts at position 3, ahead of
    the reference [foo], where it starts at position 0. *)
Lemma search_definition_before_earlier_position :
  ∃ results,
    search_identifiers (engine := Demo.engine) (Some Demo.config) Demo.fs
      "demo" "foo" 50 2 true true !! "results" = Some (PMatches results)
    ∧ ¬ position_first_order "foo" results.
Proof.
  eexists. split; [vm_compute; reflexivity|].
  intros Horder.
  destruct (Horder 0%nat 1%nat _ _ ltac:(lia) eq_refl eq_refl) as [Hpos _].
  vm_compute in Hpos. by apply Hpos.
Qed.

Lemma search_results_order_witness :
  ∃ results,
    search_identifiers (engine := Demo.engine) (Some Demo.config) Demo.fs
      "demo" "foo" 50 2 true true !! "results" = Some (PMatches results)
    ∧ ∀ i j a b, (i < j)%nat → results !! i = Some a → results !! j = Some b →
        (Match.kind b = "def" → Match.kind a = "def")
        ∧ ((Match.kind a = "def" ↔ Match.kind b = "def") →
           (match_position "foo" a ≤ match_position "foo" b)%Z).
Proof.
  eexists. split.
  - vm_compute. reflexivity.
  - apply (search_results_order (pathlib := Demo.pathlib) (utils := Demo.utils)
              (engine := Demo.engine) (Some Demo.config)
             Demo.fs "demo" "foo" 50 2 true true).
    vm_compute. reflexivity.
Defined.

(** C3 (as stated) fails: with [chat_files=[]] and [other_files=[]] on a
    project whose root holds source files, the root is scanned and the
    engine's map is returned, not the "no files" response. *)
Lemma repo_map_empty_lists_scan_root :
  let result :=
    repo_map (engine := Demo.mapping_engine) (Some Demo.config) Demo.fs "demo"
      (Some []) (Some []) 8192 false false None None false None in
  result !! "map" = Some (PStr "/srv/demo/a.py/srv/demo/pkg/b.py")
  ∧ result ≠ no_files_response.
Proof.
  split; [vm_compute; reflexivity|].
  intros Heq. apply (f_equal (fun m => m !! "map")) in Heq.
  vm_compute in Heq. discriminate.
Qed.

Lemma repo_map_no_files_witness :
  get_project_root Demo.config "empty" ≠ ""
  ∧ repo_map (engine := Demo.engine) (Some Demo.config) Demo.fs "empty"
      (Some []) (Some []) 8192 false false None None false None
    = no_files_response.
Proof.
  assert (get_project_root Demo.config "empty" ≠ "") as Hroot
    by (vm_compute; discriminate).
  split; [exact Hroot|].
  destruct (repo_map_no_files (pathlib := Demo.pathlib) (utils := Demo.utils)
              (engine := Demo.engine) Demo.config Demo.fs
              "empty" (Some []) (Some []) 8192 false false None None false
              None Hroot) as (Hiff & Hmap & _).
  apply Hmap, Hiff. split; vm_compute; reflexivity.
Defined.

(** C5 (as stated) fails: with [max_results = -1] the slice drops the last
    of the three sorted matches and two results are returned, more than
    [max_results]. *)
Lemma search_negative_max_results :
  ∃ results,
    search_identifiers (engine := Demo.engine) (Some Demo.config) Demo.fs
      "demo" "foo" (-1) 2 true true !! "results" = Some (PMatches results)
    ∧ length results = 2%nat
    ∧ ¬ (Z.of_nat (length results) ≤ -1)%Z.
Proof.
  eexists. split; [vm_compute; reflexivity|]. split; [reflexivity|].
  simpl. lia.
Qed.

Lemma search_results_truncated_witness :
  ∃ results all_tags,
    search_identifiers (engine := Demo.engine) (Some Demo.config) Demo.fs
      "demo" "foo" 2 2 true true !! "results" = Some (PMatches results)
    ∧ collect_tags (engine := Demo.engine) (search_args "/srv/demo") "/srv/demo"
        (find_src_files Demo.fs "/srv/demo")
      = Ok (all_tags, search_args "/srv/demo")
    ∧ tag_of_match <$> results
      `sublist_of` Py.slice_to 2 (list_sort (sort_key (Py.lower "foo"))
                                    (filter_tags "foo" true true all_tags))
    ∧ (Z.of_nat (length results) ≤ 2)%Z.
Proof.
  eexists.
  destruct (search_results_truncated (pathlib := Demo.pathlib) (utils := Demo.utils)
              (engine := Demo.engine) (Some Demo.config)
              Demo.fs "demo" "foo" 2 2 true true _ ltac:(vm_compute; reflexivity))
    as (cfg & repo & all_tags & repo1 & repo2 & Hcfg & Hinit & Hcollect & _ & _
        & _ & _ & Hsub & Hmax).
  injection Hcfg as <-. injection Hinit as <-.
  exists all_tags. split_and!; [vm_compute; reflexivity | | exact Hsub |].
  - etrans; [exact Hcollect|]. vm_compute in Hcollect.
    injection Hcollect as _ <-. reflexivity.
  - apply Hmax. lia.
Defined.

Lemma other_files_disjoint_from_chat_witness :
  ∃ c,
    repo_map_request (Some Demo.config) Demo.fs "demo" (Some ["/srv/demo/a.py"])
      (Some ["/srv/demo/a.py"; "/srv/demo/pkg/b.py"]) 8192 false false None
      None false None = inr c
    ∧ call_chat_files c = ["/srv/demo/a.py"]
    ∧ call_other_files c = ["/srv/demo/pkg/b.py"]
    ∧ (∀ f, f ∈ call_chat_files c → f ∉ call_other_files c).
Proof.
  destruct (repo_map_request (Some Demo.config) Demo.fs "demo"
              (Some ["/srv/demo/a.py"])
              (Some ["/srv/demo/a.py"; "/srv/demo/pkg/b.py"]) 8192 false false
              None None false None) as [early|c] eqn:Hreq;
    [vm_compute in Hreq; discriminate|].
  exists c.
  destruct (other_files_disjoint_from_chat (pathlib := Demo.pathlib) (utils := Demo.utils)
              (engine := Demo.engine) _ _ _ _ _ _
              _ _ _ _ _ _ c Hreq) as (_ & _ & Hdisj & _).
  vm_compute in Hreq. injection Hreq as <-.
  split_and!; [reflexivity | reflexivity | reflexivity | exact Hdisj].
Defined.

Lemma unknown_project_error_witness :
  get_project_root Demo.config "nope" = ""
  ∧ repo_map (engine := Demo.engine) (Some Demo.config) Demo.fs "nope" None None
      8192 false false None None false None
    = {[ "error" := PStr "Project 'nope' not found in projects.json" ]}
  ∧ search_identifiers (engine := Demo.engine) (Some Demo.config) Demo.fs
      "nope" "foo" 50 2 true true
    = {[ "error" := PStr "Project 'nope' not found in projects.json" ]}.
Proof.
  assert (get_project_root Demo.config "nope" = "") as Hroot by reflexivity.
  split; [exact Hroot|].
  destruct (unknown_project_error (pathlib := Demo.pathlib) (utils := Demo.utils)
              (engine := Demo.engine) Demo.config Demo.fs
              "nope" None None 8192 false false None None false None "foo" 50
              2 true true Hroot) as (_ & Hmap & Hsearch & _).
  split; [exact Hmap | exact Hsearch].
Defined.

Lemma repo_map_never_empty_map_witness :
  repo_map (engine := Demo.engine) (Some Demo.config) Demo.fs "empty" None None
    8192 false false None None false None = no_files_response
  ∧ repo_map (engine := Demo.engine) (Some Demo.config) Demo.fs "demo" None None
      8192 false false None None false None = no_map_response.
Proof.
  split.
  - destruct (repo_map_never_empty_map (pathlib := Demo.pathlib) (utils := Demo.utils)
              (engine := Demo.engine)
                (Some Demo.config) Demo.fs "empty" None None 8192 false false
                None None false None) as (_ & Hfiles & _).
    apply (Hfiles Demo.config); [reflexivity | vm_compute; discriminate
                                | reflexivity | reflexivity].
  - destruct (repo_map_never_empty_map (pathlib := Demo.pathlib) (utils := Demo.utils)
              (engine := Demo.engine)
                (Some Demo.config) Demo.fs "demo" None None 8192 false false
                None None false None) as (_ & _ & Hmap).
    destruct (repo_map_request (Some Demo.config) Demo.fs "demo" None None 8192
                false false None None false None) as [early|c] eqn:Hreq;
      [vm_compute in Hreq; discriminate|].
    apply (Hmap c (call_args c) None); [reflexivity | reflexivity | | by left].
    vm_compute in Hreq. injection Hreq as <-. reflexivity.
Defined.

Lemma get_project_root_case_insensitive_witness :
  get_project_root Demo.config "nope" = ""
  ∧ get_project_root Demo.config "DEMO" = "/srv/demo"
  ∧ get_project_root Demo.config "DEMO" = get_project_root Demo.config "demo".
Proof.
  split_and!.
  - destruct (get_project_root_case_insensitive Demo.config "nope")
      as (Hnone & _ & _).
    apply Hnone. intros key d Hin. simpl in Hin.
    repeat (apply elem_of_cons in Hin as [[= -> _]|Hin];
            [vm_compute; discriminate|]).
    by apply elem_of_nil in Hin.
  - destruct (get_project_root_case_insensitive Demo.config "DEMO")
      as (_ & Hfirst & _).
    etrans.
    { apply (Hfirst [] "Demo" {[ "root" := "/srv/demo"; "description" := "demo" ]}
               [ ("empty", {[ "root" := "/srv/empty" ]});
                 ("Broken", {[ "description" := "no root" ]}) ]);
        [reflexivity | reflexivity |].
      intros k' d' Hin. by apply elem_of_nil in Hin. }
    vm_compute. reflexivity.
  - destruct (get_project_root_case_insensitive Demo.config "demo")
      as (_ & _ & Hcase).
    apply Hcase. reflexivity.
Defined.

End DemoRuns.

(** ** More on the file enumerator *)

Lemma file_names_spec es f : f ∈ file_names es ↔ (f, File) ∈ es.
Proof.
  unfold file_names. rewrite list_elem_of_fmap. split.
  - intros ([f' n] & -> & Hin). apply list_elem_of_filter in Hin as [Hfile Hin].
    simpl in *. by destruct n.
  - intros Hin. exists (f, File). split; [done|].
    apply list_elem_of_filter. by split.
Qed.

Lemma walk_reaches n : ∀ r p,
  p ∈ walk r n ↔
  ∃ dirs f, reaches n dirs f ∧ p = foldl Py.os_path_join r (dirs ++ [f]).
Proof.
  induction n as [|es IH] using fsnode_ind; intros r p.
  - simpl. split.
    + intros Hp. by apply elem_of_nil in Hp.
    + intros (dirs & f & Hr & _). inversion Hr.
  - rewrite walk_Dir, elem_of_app. split.
    + intros [Hp | Hp].
      * apply list_elem_of_fmap in Hp as (f & -> & Hf).
        apply list_elem_of_filter in Hf as [Hkeep Hf].
        apply file_names_spec in Hf.
        exists [], f. split; [by constructor | done].
      * apply list_elem_of_join in Hp as (ps & Hp & Hps).
        apply list_elem_of_fmap in Hps as ([d sub] & -> & He). simpl in Hp.
        destruct (is_dir sub && keep_dir d) eqn:Hk; [|by apply elem_of_nil in Hp].
        apply andb_true_iff in Hk as [Hdir Hk].
        rewrite Forall_forall in IH. specialize (IH _ He). simpl in IH.
        apply IH in Hp as (dirs & f & Hr & ->).
        exists (d :: dirs), f. split; [by econstructor | done].
    + intros (dirs & f & Hr & ->). inversion Hr as [es' f' Hin Hkeep | es' d sub dirs' f' Hin Hdir Hk Hsub]; subst.
      * left. apply list_elem_of_fmap. exists f. split; [done|].
        apply list_elem_of_filter. split; [done|]. by apply file_names_spec.
      * right. apply list_elem_of_join.
        exists (walk (Py.os_path_join r d) sub). split.
        -- rewrite Forall_forall in IH. specialize (IH _ Hin). simpl in IH.
           apply IH. by exists dirs', f.
        -- apply list_elem_of_fmap. exists (d, sub). simpl.
           by rewrite Hdir, Hk.
Qed.

Lemma reaches_below n dirs f :
  reaches n dirs f →
  below n dirs f
  ∧ Forall (fun d => keep_dir d = true) dirs
  ∧ keep_file f = true.
Proof.
  induction 1 as [es f Hin Hkeep | es d sub dirs f Hin Hdir Hk Hsub IH].
  - split_and!; [by constructor | constructor | done].
  - destruct IH as (Hbelow & Hdirs & Hf).
    split_and!; [by econstructor | by constructor | done].
Qed.

(** C6 (as amended). Every path [find_src_files] returns for a directory is
    that directory joined with a chain of sub-directory names and a file
    name that are entries of the tree below it, each sub-directory an entry
    of the one before and the file an entry of the last; none of these
    sub-directory names starts with ['.'] or is one of [node_modules],
    [__pycache__], [venv], [env], and the file name does not start with
    ['.']. The argument itself is not filtered, and an argument that is a
    regular file is returned as it is. *)
Theorem find_src_files_filtered (fs : filesystem) (directory p : string) :
  p ∈ find_src_files fs directory →
  (fs directory = Some File ∧ p = directory)
  ∨ (∃ es dirs f,
        fs directory = Some (Dir es)
        ∧ below (Dir es) dirs f
        ∧ p = foldl Py.os_path_join directory (dirs ++ [f])
        ∧ Forall (fun d => Py.startswith d "." = false ∧ d ∉ excluded_dirs) dirs
        ∧ Py.startswith f "." = false).
Proof.
  unfold find_src_files. destruct (fs directory) as [[|es]|] eqn:Hfs; intros Hp.
  - left. apply list_elem_of_singleton in Hp. done.
  - right. apply walk_reaches in Hp as (dirs & f & Hr & ->).
    apply reaches_below in Hr as (Hbelow & Hdirs & Hf).
    exists es, dirs, f. split_and!; [done | done | done | |].
    + eapply Forall_impl; [exact Hdirs|]. intros d. apply keep_dir_spec.
    + unfold keep_file in Hf. by apply negb_true_iff in Hf.
  - by apply elem_of_nil in Hp.
Qed.

Lemma find_src_files_filtered_witness :
  (Demo.fs "/srv/demo" = Some File ∧ "/srv/demo/pkg/b.py" = "/srv/demo")
  ∨ (∃ es dirs f,
        Demo.fs "/srv/demo" = Some (Dir es)
        ∧ below (Dir es) dirs f
        ∧ "/srv/demo/pkg/b.py" = foldl Py.os_path_join "/srv/demo" (dirs ++ [f])
        ∧ Forall (fun d => Py.startswith d "." = false ∧ d ∉ excluded_dirs) dirs
        ∧ Py.startswith f "." = false).
Proof.
  apply (find_src_files_filtered Demo.fs "/srv/demo" "/srv/demo/pkg/b.py").
  vm_compute. apply list_elem_of_further, list_elem_of_here.
Defined.

(** X1. For a directory argument, [find_src_files] returns exactly the paths
    of the files that lie below it through sub-directories that all pass the
    directory filter and whose own name passes the file filter: nothing that
    passes is left out, and nothing else is returned. *)
Theorem find_src_files_exact (fs : filesystem) (directory : string)
    (es : list (string * fsnode)) (p : string) :
  fs directory = Some (Dir es) →
  p ∈ find_src_files fs directory ↔
  ∃ dirs f, reaches (Dir es) dirs f
            ∧ p = foldl Py.os_path_join directory (dirs ++ [f]).
Proof.
  intros Hfs. unfold find_src_files. rewrite Hfs. apply walk_reaches.
Qed.

Lemma find_src_files_exact_witness :
  "/srv/demo/pkg/b.py" ∈ find_src_files Demo.fs "/srv/demo" ↔
  ∃ dirs f,
    reaches Demo.tree dirs f
    ∧ "/srv/demo/pkg/b.py" = foldl Py.os_path_join "/srv/demo" (dirs ++ [f]).
Proof.
  apply (find_src_files_exact Demo.fs "/srv/demo"). reflexivity.
Defined.

Lemma startswith_refl s : Py.startswith s s = true.
Proof. induction s as [|c s IH]; simpl; [done | by rewrite decide_True]. Qed.

Lemma string_app_assoc (a b c : string) : (a +:+ b) +:+ c = a +:+ (b +:+ c).
Proof.
  induction a as [|x a IH]; [done|].
  change (String x ((a +:+ b) +:+ c) = String x (a +:+ b +:+ c)). by f_equal.
Qed.

Lemma startswith_trans a b c :
  Py.startswith b a = true → Py.startswith c b = true → Py.startswith c a = true.
Proof.
  rewrite !startswith_spec. intros [r1 ->] [r2 ->].
  exists (r1 +:+ r2). apply string_app_assoc.
Qed.

Lemma os_path_join_prefix a b :
  Py.startswith b "/" = false → Py.startswith (Py.os_path_join a b) a = true.
Proof.
  intros Hb. unfold Py.os_path_join. rewrite Hb.
  destruct (negb (Py.truthy_str a) || Py.endswith_char a "/");
    apply startswith_spec; eauto.
Qed.

Lemma walk_prefix n : ∀ r p,
  names_ok n → p ∈ walk r n → Py.startswith p r = true.
Proof.
  induction n as [|es IH] using fsnode_ind; intros r p Hok Hp.
  - by apply elem_of_nil in Hp.
  - inversion Hok as [|es' Hes]; subst. rewrite Forall_forall in Hes.
    rewrite walk_Dir in Hp. apply elem_of_app in Hp as [Hp | Hp].
    + apply list_elem_of_fmap in Hp as (f & -> & Hf).
      apply list_elem_of_filter in Hf as [_ Hf]. apply file_names_spec in Hf.
      apply os_path_join_prefix. by destruct (Hes _ Hf).
    + apply list_elem_of_join in Hp as (ps & Hp & Hps).
      apply list_elem_of_fmap in Hps as ([d sub] & -> & He). simpl in Hp.
      destruct (is_dir sub && keep_dir d); [|by apply elem_of_nil in Hp].
      destruct (Hes _ He) as [Hd Hsub]. simpl in *.
      rewrite Forall_forall in IH. specialize (IH _ He). simpl in IH.
      eapply startswith_trans; [by apply os_path_join_prefix | by eapply IH].
Qed.

(** X2. Every path [find_src_files] returns starts with its argument, as a
    string, provided no entry name of the scanned tree starts with the path
    separator. *)
Theorem find_src_files_below_argument (fs : filesystem) (directory p : string) :
  (∀ n, fs directory = Some n → names_ok n) →
  p ∈ find_src_files fs directory →
  Py.startswith p directory = true.
Proof.
  intros Hok. unfold find_src_files.
  destruct (fs directory) as [[|es]|] eqn:Hfs; intros Hp.
  - apply list_elem_of_singleton in Hp as ->. apply startswith_refl.
  - eapply walk_prefix; [|exact Hp]. by apply Hok.
  - by apply elem_of_nil in Hp.
Qed.

Lemma find_src_files_below_argument_witness :
  Py.startswith "/srv/demo/pkg/b.py" "/srv/demo" = true.
Proof.
  apply (find_src_files_below_argument Demo.fs "/srv/demo" "/srv/demo/pkg/b.py").
  - intros n Hn. vm_compute in Hn. injection Hn as <-.
    repeat (constructor; simpl; try done).
  - vm_compute. apply list_elem_of_further, list_elem_of_here.
Defined.

(** ** More on the project registry *)

Lemma first_project_root_sound projects project_name :
  first_project_root projects project_name ≠ "" →
  ∃ key d, (key, d) ∈ projects
           ∧ Py.lower key = Py.lower project_name
           ∧ d !! "root" = Some (first_project_root projects project_name).
Proof.
  induction projects as [|[key d] projects IH]; simpl; [done|].
  destruct (bool_decide (Py.lower key = Py.lower project_name)) eqn:Hk.
  - apply bool_decide_eq_true in Hk. intros Hroot. exists key, d.
    split_and!; [by left | done |].
    destruct (d !! "root"); [done | by simpl in Hroot].
  - intros Hroot. destruct (IH Hroot) as (k' & d' & Hin & Hlow & Hd).
    exists k', d'. split_and!; [by right | done | done].
Qed.

(** X3. A root that [get_project_root] returns is never made up: when the
    result is not empty, the registry holds a project whose key equals the
    name ignoring case and whose ['root'] entry is that result. *)
Theorem get_project_root_sound (cfg : ProjectConfig) (project_name : string) :
  get_project_root cfg project_name ≠ "" →
  ∃ projects key d,
    config_projects cfg = Some projects
    ∧ (key, d) ∈ projects
    ∧ Py.lower key = Py.lower project_name
    ∧ d !! "root" = Some (get_project_root cfg project_name).
Proof.
  unfold get_project_root. destruct (config_projects cfg) as [projects|]; simpl;
    [|done].
  intros Hroot. destruct (first_project_root_sound _ _ Hroot) as (key & d & ?).
  by exists projects, key, d.
Qed.

Lemma get_project_root_sound_witness :
  ∃ projects key d,
    config_projects Demo.config = Some projects
    ∧ (key, d) ∈ projects
    ∧ Py.lower key = Py.lower "DEMO"
    ∧ d !! "root" = Some (get_project_root Demo.config "DEMO").
Proof.
  apply (get_project_root_sound Demo.config "DEMO"). vm_compute. discriminate.
Defined.

(** X4. The listing and the lookup agree: for every entry [list_projects]
    reports that is not preceded by an entry with the same key ignoring case,
    looking its key up with [get_project_root] gives the root the listing
    shows. The listing has one entry per configured project, in the
    registry's order. *)
Theorem list_projects_agrees_with_lookup (cfg : ProjectConfig)
    (i : nat) (entry : Project.t) :
  ∃ listed,
    list_projects (Some cfg) = {[ "projects" := LProjects listed ]}
    ∧ Project.key <$> listed = (default [] (config_projects cfg)).*1
    ∧ (listed !! i = Some entry →
       (∀ j earlier, (j < i)%nat → listed !! j = Some earlier →
          Py.lower (Project.key earlier) ≠ Py.lower (Project.key entry)) →
       get_project_root cfg (Project.key entry) = Project.root entry).
Proof.
  exists (project_entry <$> default [] (config_projects cfg)).
  unfold list_projects, get_project_root.
  set (projects := default [] (config_projects cfg)).
  split_and!; [done | |].
  - rewrite <- list_fmap_compose. apply list_fmap_ext. by intros _ [k d] _.
  - intros Hi Hfirst. rewrite list_lookup_fmap in Hi.
    destruct (projects !! i) as [[k d]|] eqn:Hp; [|done].
    injection Hi as <-. simpl.
    rewrite <- (take_drop_middle projects i (k, d) Hp).
    apply first_project_root_first; [done|].
    intros k' d' Hin. apply list_elem_of_lookup in Hin as [j Hj].
    apply lookup_take_Some in Hj as [Hj Hlt].
    apply (Hfirst j (project_entry (k', d'))); [done|].
    by rewrite list_lookup_fmap, Hj.
Qed.

Lemma list_projects_agrees_with_lookup_witness :
  get_project_root Demo.config "empty" = "/srv/empty".
Proof.
  destruct (list_projects_agrees_with_lookup Demo.config 1
              (Project.mk "empty" "/srv/empty" "No description provided."))
    as (listed & Hlist & _ & Hagree).
  assert (listed = project_entry <$> default [] (config_projects Demo.config))
    as ->.
  { apply (f_equal (fun m => m !! "projects")) in Hlist.
    unfold list_projects in Hlist. rewrite !lookup_singleton_eq in Hlist.
    by injection Hlist as <-. }
  apply Hagree; [reflexivity|].
  intros j earlier Hj Hlook. destruct j as [|j]; [|lia].
  vm_compute in Hlook. injection Hlook as <-. vm_compute. discriminate.
Defined.

(** ** More on the tools' responses *)

Lemma filter_all {A} (P : A → Prop) `{!∀ x, Decision (P x)} (l : list A) :
  Forall P l → filter P l = l.
Proof.
  induction 1 as [|x l Hx Hl IH]; [done|].
  by rewrite filter_cons_True, IH.
Qed.

Lemma filter_none {A} (P : A → Prop) `{!∀ x, Decision (P x)} (l : list A) :
  Forall (fun x => ¬ P x) l → filter P l = [].
Proof.
  induction 1 as [|x l Hx Hl IH]; [done|].
  by rewrite filter_cons_False, IH.
Qed.

Section ResponseProperties.
Context {pathlib : Pathlib} {utils : Utils} {engine : RepoMapClass}.

Lemma run_engine_dom c :
  dom (run_engine c) = ({[ "error" ]} : gset string)
  ∨ dom (run_engine c) = ({[ "map" ]} : gset string).
Proof.
  unfold run_engine. destruct (RepoMap_init _) as [m|e];
    [|left; apply dom_singleton_L].
  destruct (get_repo_map _ _ _ _ _ _) as [x|e];
    [right | left]; apply dom_singleton_L.
Qed.

(** X5. Every response of a tool is a dictionary with exactly one key:
    ['error'] or ['map'] for [repo_map], ['error'] or ['results'] for
    [search_identifiers], ['error'] or ['projects'] for [list_projects]. *)
Theorem responses_have_one_key (project_config : option ProjectConfig)
    (fs : filesystem) (project_name : string)
    (chat_files other_files : option (list string)) (token_limit : Z)
    (unranked force_refresh : bool)
    (mentioned_files mentioned_idents : option (list string)) (verbose : bool)
    (window : option Z) (query : string) (max_results context_lines : Z)
    (include_definitions include_references : bool) :
  let mapped := repo_map project_config fs project_name chat_files other_files
                  token_limit unranked force_refresh mentioned_files
                  mentioned_idents verbose window in
  let found := search_identifiers project_config fs project_name query
                 max_results context_lines include_definitions
                 include_references in
  let listed := list_projects project_config in
  (dom mapped = ({[ "error" ]} : gset string) ∨ dom mapped = {[ "map" ]})
  ∧ (dom found = ({[ "error" ]} : gset string) ∨ dom found = {[ "results" ]})
  ∧ (dom listed = ({[ "error" ]} : gset string) ∨ dom listed = {[ "projects" ]}).
Proof.
  intros mapped found listed. split_and!.
  - subst mapped. unfold repo_map, repo_map_request.
    destruct project_config as [cfg|]; [|left; apply dom_singleton_L].
    destruct (negb (Py.truthy_str _)); [left; apply dom_singleton_L|].
    destruct (negb _ && negb _); [right; apply dom_singleton_L|].
    apply run_engine_dom.
  - subst found. unfold search_identifiers.
    destruct project_config as [cfg|]; [|left; apply dom_singleton_L].
    destruct (negb (Py.truthy_str _)); [left; apply dom_singleton_L|].
    destruct (search_body _ _ _ _ _ _ _); [right | left]; apply dom_singleton_L.
  - subst listed. unfold list_projects.
    destruct project_config; [right | left]; apply dom_singleton_L.
Qed.

(** X6. [repo_map] reports an error in exactly four situations, each with
    its own message: the server has no registry yet; the registry gives no
    root for the project; the engine's constructor raises; or the engine's
    [get_repo_map] raises. In the last two the exception text is appended,
    and nothing is raised to the caller. *)
Theorem repo_map_error_cases (project_config : option ProjectConfig)
    (fs : filesystem) (project_name : string)
    (chat_files other_files : option (list string)) (token_limit : Z)
    (unranked force_refresh : bool)
    (mentioned_files mentioned_idents : option (list string)) (verbose : bool)
    (window : option Z) (message : string) :
  let request := repo_map_request project_config fs project_name chat_files
                   other_files token_limit unranked force_refresh
                   mentioned_files mentioned_idents verbose window in
  repo_map project_config fs project_name chat_files other_files token_limit
    unranked force_refresh mentioned_files mentioned_idents verbose window
    !! "error" = Some (PStr message) ↔
  (project_config = None
   ∧ message = "Server not fully initialized. ProjectConfig is missing.")
  ∨ (∃ cfg, project_config = Some cfg
            ∧ get_project_root cfg project_name = ""
            ∧ message = "Project '" +:+ project_name
                        +:+ "' not found in projects.json")
  ∨ (∃ c e, request = inr c
            ∧ RepoMap_init (call_args c) = Raise e
            ∧ message = "Failed to initialize RepoMap: " +:+ e)
  ∨ (∃ c repo_mapper e,
       request = inr c
       ∧ RepoMap_init (call_args c) = Ok repo_mapper
       ∧ get_repo_map repo_mapper (call_chat_files c) (call_other_files c)
           (call_mentioned_fnames c) (call_mentioned_idents c)
           (call_force_refresh c) = Raise e
       ∧ message = "Error generating repository map: " +:+ e).
Proof.
  intros request. unfold repo_map. fold request.
  destruct request as [early|c] eqn:Hreq.
  - subst request. unfold repo_map_request in Hreq.
    destruct project_config as [cfg|].
    + destruct (Py.truthy_str (get_project_root cfg project_name)) eqn:Hroot;
        cbn [negb] in Hreq.
      * destruct (negb _ && negb _); [|done]. injection Hreq as <-.
        split; [done|].
        intros [[? _] | [(cfg' & [= <-] & Hr & _) | [(? & ? & ? & _) | (? & ? & ? & ? & _)]]];
          try done.
        apply truthy_str_false in Hr. congruence.
      * injection Hreq as <-. unfold project_not_found.
        rewrite lookup_singleton_eq. apply truthy_str_false in Hroot. split.
        -- intros [= <-]. right. left. by exists cfg.
        -- intros [[? _] | [(cfg' & [= <-] & _ & ->) | [(? & ? & ? & _) | (? & ? & ? & ? & _)]]];
             done.
    + injection Hreq as <-. unfold not_initialized. rewrite lookup_singleton_eq.
      split.
      * intros [= <-]. by left.
      * intros [[_ ->] | [(? & ? & _) | [(? & ? & ? & _) | (? & ? & ? & ? & _)]]]; done.
  - assert (∃ cfg, project_config = Some cfg
                   ∧ get_project_root cfg project_name ≠ "") as (cfg & -> & Hroot).
    { subst request. destruct project_config as [cfg|]; [|done].
      exists cfg. split; [done|].
      by destruct (repo_map_request_call _ _ _ _ _ _ _ _ _ _ _ _ _ Hreq). }
    unfold run_engine. split.
    + destruct (RepoMap_init (call_args c)) as [m|e] eqn:Hinit.
      * destruct (get_repo_map m _ _ _ _ _) as [x|e] eqn:Hmap; [done|].
        rewrite lookup_singleton_eq. intros [= <-].
        right. right. right. by exists c, m, e.
      * rewrite lookup_singleton_eq. intros [= <-].
        right. right. left. by exists c, e.
    + intros [[? _] | [(cfg' & [= <-] & Hr & _) | [(c' & e & [= <-] & Hinit & ->)
                     | (c' & m & e & [= <-] & Hinit & Hmap & ->)]]]; try done.
      * by rewrite Hinit, lookup_singleton_eq.
      * by rewrite Hinit, Hmap, lookup_singleton_eq.
Qed.

(** X8. The other files handed to the engine are exactly the resolved
    effective other files with every file that is also a resolved chat file
    struck out and nothing else changed: order and repetitions of the
    remaining files are kept. So they form a sub-list of the resolved list,
    and when no effective other file resolves to a chat file the whole
    resolved list is handed over. *)
Theorem other_files_keep_order (cfg : ProjectConfig) (fs : filesystem)
    (project_name : string) (chat_files other_files : option (list string))
    (token_limit : Z) (unranked force_refresh : bool)
    (mentioned_files mentioned_idents : option (list string)) (verbose : bool)
    (window : option Z) (c : engine_call) :
  repo_map_request (Some cfg) fs project_name chat_files other_files token_limit
    unranked force_refresh mentioned_files mentioned_idents verbose window
  = inr c →
  let others :=
    effective_other_files fs (get_project_root cfg project_name) other_files in
  call_chat_files c = resolve <$> default [] chat_files
  ∧ call_other_files c
    = filter (fun f => f ∉ resolve <$> default [] chat_files) (resolve <$> others)
  ∧ call_other_files c `sublist_of` resolve <$> others
  ∧ ((∀ f, f ∈ others → resolve f ∉ call_chat_files c) →
     call_other_files c = resolve <$> others).
Proof.
  intros Hreq others.
  destruct (repo_map_request_call _ _ _ _ _ _ _ _ _ _ _ _ _ Hreq)
    as (_ & _ & Hchat & Hother & _).
  fold others in Hother. split_and!.
  - done.
  - rewrite Hother. apply list_filter_iff. intros f.
    by rewrite elem_of_list_to_set, Hchat.
  - rewrite Hother. apply sublist_filter.
  - intros Hdisj. rewrite Hother. apply filter_all. apply Forall_forall.
    intros g Hg. rewrite elem_of_list_to_set.
    apply list_elem_of_fmap in Hg as (f & -> & Hf). by apply Hdisj.
Qed.

(** X9. A non-empty text the engine returns is passed on unchanged: it is
    the value under ['map'], and the response has no other key. *)
Theorem repo_map_passes_engine_text (project_config : option ProjectConfig)
    (fs : filesystem) (project_name : string)
    (chat_files other_files : option (list string)) (token_limit : Z)
    (unranked force_refresh : bool)
    (mentioned_files mentioned_idents : option (list string)) (verbose : bool)
    (window : option Z) (c : engine_call) (repo_mapper : RepoMap)
    (text : string) :
  repo_map_request project_config fs project_name chat_files other_files
    token_limit unranked force_refresh mentioned_files mentioned_idents verbose
    window = inr c →
  RepoMap_init (call_args c) = Ok repo_mapper →
  get_repo_map repo_mapper (call_chat_files c) (call_other_files c)
    (call_mentioned_fnames c) (call_mentioned_idents c) (call_force_refresh c)
  = Ok (Some text) →
  text ≠ "" →
  repo_map project_config fs project_name chat_files other_files token_limit
    unranked force_refresh mentioned_files mentioned_idents verbose window
  = {[ "map" := PStr text ]}.
Proof.
  intros Hreq Hinit Hmap Htext. unfold repo_map. rewrite Hreq.
  unfold run_engine. rewrite Hinit, Hmap. simpl.
  destruct (Py.truthy_str text) eqn:Ht; [done|].
  by apply truthy_str_false in Ht.
Qed.

End ResponseProperties.

(** ** Stability of the sort *)

Section Stability.
Context {A : Type} (key : A → bool * Z).

Lemma key_lt_irrefl (k : bool * Z) : key_lt k k = false.
Proof. apply key_lt_false_iff. split; [done | lia]. Qed.

Lemma key_lt_le_trans (a b c : bool * Z) :
  key_lt a b = true → key_lt c b = false → key_lt a c = true.
Proof.
  destruct a as [[] ap], b as [[] bp], c as [[] cp]; unfold key_lt; simpl;
    rewrite ?Z.ltb_lt, ?Z.ltb_ge; try done; lia.
Qed.

Lemma sort_insert_filter (k : bool * Z) x l :
  StronglySorted (key_ordered key) l →
  filter (fun y => key y = k) (sort_insert key x l)
  = filter (fun y => key y = k) l ++ filter (fun y => key y = k) [x].
Proof.
  induction l as [|y l IH]; intros Hs; [done|].
  apply StronglySorted_cons in Hs as [Hy Hl]. simpl.
  destruct (key_lt (key x) (key y)) eqn:Hlt.
  - rewrite !(filter_cons _ x). destruct (decide (key x = k)) as [Hk|Hk].
    + rewrite (filter_none (fun z => key z = k) (y :: l)); [done|].
      assert (∀ z, key_lt (key x) (key z) = true → key z ≠ k) as Hnot.
      { intros z Hz Heq. rewrite <- Hk in Heq. rewrite Heq in Hz.
        by rewrite key_lt_irrefl in Hz. }
      constructor; [by apply Hnot|].
      eapply Forall_impl; [exact Hy|]. intros z Hz. apply Hnot.
      by eapply key_lt_le_trans.
    + by rewrite filter_nil, app_nil_r.
  - rewrite !(filter_cons _ y), IH by done. by destruct (decide (key y = k)).
Qed.

Lemma foldl_insert_filter (k : bool * Z) l : ∀ acc,
  StronglySorted (key_ordered key) acc →
  filter (fun y => key y = k) (foldl (fun sorted x => sort_insert key x sorted) acc l)
  = filter (fun y => key y = k) acc ++ filter (fun y => key y = k) l.
Proof.
  induction l as [|x l IH]; intros acc Hacc; simpl.
  - by rewrite app_nil_r.
  - rewrite IH by (by apply sort_insert_sorted).
    rewrite sort_insert_filter by done.
    rewrite !(filter_cons _ x), filter_nil.
    destruct (decide (key x = k)); by rewrite <- ?app_assoc, ?app_nil_r.
Qed.

Lemma list_sort_stable (k : bool * Z) l :
  filter (fun y => key y = k) (list_sort key l) = filter (fun y => key y = k) l.
Proof. unfold list_sort. rewrite foldl_insert_filter; [done | constructor]. Qed.

Lemma sorted_two_keys (k1 k2 : bool * Z) l :
  key_lt k1 k2 = true →
  Forall (fun x => key x = k1 ∨ key x = k2) l →
  StronglySorted (key_ordered key) l →
  l = filter (fun y => key y = k1) l ++ filter (fun y => key y = k2) l.
Proof.
  intros Hlt Hkeys Hs. assert (k1 ≠ k2) as Hne.
  { intros ->. by rewrite key_lt_irrefl in Hlt. }
  induction Hs as [|x l Hl IH Hx]; [done|].
  apply Forall_cons_1 in Hkeys as [Hkx Hkeys]. specialize (IH Hkeys).
  destruct Hkx as [Hk | Hk].
  - rewrite (filter_cons_True _ x) by done.
    rewrite (filter_cons_False _ x) by congruence. simpl. by f_equal.
  - rewrite (filter_cons_False _ x) by congruence.
    rewrite (filter_cons_True _ x) by done.
    assert (filter (fun y => key y = k1) l = []) as Hnone.
    { apply filter_none. eapply Forall_impl; [exact Hx|].
      intros z Hz Hk1. unfold key_ordered in Hz. rewrite Hk1, Hk in Hz. congruence. }
    rewrite Hnone in *. simpl in *. by f_equal.
Qed.

End Stability.

(** ** More on [search_identifiers] *)

Lemma range_spec (a b z : Z) : z ∈ Py.range a b ↔ (a ≤ z < b)%Z.
Proof.
  unfold Py.range. rewrite list_elem_of_fmap. split.
  - intros (i & -> & Hi). apply elem_of_seq in Hi. lia.
  - intros Hz. exists (Z.to_nat (z - a)). split; [lia|].
    apply elem_of_seq. lia.
Qed.

Lemma find_empty s : Py.find s "" = 0%Z.
Proof. by destruct s. Qed.

Lemma str_in_empty s : Py.str_in "" s = true.
Proof. by destruct s. Qed.

Section SearchMore.
Context {pathlib : Pathlib} {utils : Utils} {engine : RepoMapClass}.

Lemma format_results_context project_root context_lines matching_tags :
  ∀ repo results repo',
    format_results repo project_root context_lines matching_tags
    = Ok (results, repo') →
    Forall (fun m => Match.context m ≠ "") results.
Proof.
  induction matching_tags as [|tag rest IH]; intros repo results repo' Hf.
  - injection Hf as <- _. constructor.
  - simpl in Hf.
    destruct (render_tree _ _ _ _) as [[context repo1]|e]; [|done].
    simpl in Hf.
    destruct (format_results repo1 _ _ rest) as [[more repo2]|e] eqn:Hrest;
      [|done].
    injection Hf as <- _. specialize (IH _ _ _ Hrest).
    destruct context as [context|]; [|done].
    destruct (Py.truthy_str context) eqn:Ht; [|done].
    constructor; [|done]. simpl. intros ->. done.
Qed.

(** X10. Every entry a search returns is a genuine match with something to
    show: its rendered context is not empty, its lowercased name contains
    the lowercased query, and its kind is ["def"] with [include_definitions]
    set or ["ref"] with [include_references] set. *)
Theorem search_results_sound (project_config : option ProjectConfig)
    (fs : filesystem) (project_name query : string)
    (max_results context_lines : Z)
    (include_definitions include_references : bool) (results : list Match.t)
    (m : Match.t) :
  search_identifiers project_config fs project_name query max_results
    context_lines include_definitions include_references !! "results"
  = Some (PMatches results) →
  m ∈ results →
  Match.context m ≠ ""
  ∧ (∃ pre post, Py.lower (Match.name m) = pre +:+ Py.lower query +:+ post)
  ∧ ((Match.kind m = "def" ∧ include_definitions = true)
     ∨ (Match.kind m = "ref" ∧ include_references = true)).
Proof.
  intros Hsearch Hm.
  apply search_results_inv in Hsearch
    as (cfg & repo & all_tags & repo1 & repo2 & _ & _ & Hf).
  split.
  - apply format_results_context in Hf. rewrite Forall_forall in Hf. by apply Hf.
  - apply format_results_sublist in Hf.
    assert (tag_of_match m ∈ filter_tags query include_definitions
                               include_references all_tags) as Hin.
    { rewrite <- (list_sort_perm (sort_key (Py.lower query))).
      eapply elem_of_sublist; [|apply prefix_sublist, slice_to_prefix].
      eapply elem_of_sublist; [|exact Hf]. by apply list_elem_of_fmap_2. }
    apply filter_tags_spec in Hin as (_ & Hname & Hkind). done.
Qed.

(** X11. A search that succeeds returns the empty list when [max_results]
    is [0] or when both [include_definitions] and [include_references] are
    off. *)
Theorem search_results_empty (project_config : option ProjectConfig)
    (fs : filesystem) (project_name query : string)
    (max_results context_lines : Z)
    (include_definitions include_references : bool) (results : list Match.t) :
  max_results = 0%Z ∨ (include_definitions = false ∧ include_references = false) →
  search_identifiers project_config fs project_name query max_results
    context_lines include_definitions include_references !! "results"
  = Some (PMatches results) →
  results = [].
Proof.
  intros Hcase Hsearch.
  apply search_results_inv in Hsearch
    as (cfg & repo & all_tags & repo1 & repo2 & _ & _ & Hf).
  apply format_results_sublist in Hf.
  assert (limited_matches query max_results include_definitions
            include_references all_tags = []) as Hnone.
  { destruct Hcase as [-> | [-> ->]].
    - reflexivity.
    - unfold limited_matches, sorted_matches.
      assert (filter_tags query false false all_tags = []) as ->.
      { apply filter_none. apply Forall_forall. intros tag _.
        unfold tag_matches. intros Hm. apply andb_true_iff in Hm as [_ Hm].
        rewrite !andb_false_r in Hm. done. }
      unfold Py.slice_to, list_sort. simpl.
      destruct (0 <=? max_results)%Z; apply take_nil. }
  rewrite Hnone in Hf. apply sublist_nil_r in Hf. by apply fmap_nil_inv in Hf.
Qed.

(** X12. The sort is stable: matching tags with the same sort key (the same
    class of kind and the same position of the query) stay in the order in
    which the scan found them. *)
Theorem sorted_matches_stable (query : string)
    (include_definitions include_references : bool) (all_tags : list Tag.t)
    (k : bool * Z) :
  filter (fun tag => sort_key (Py.lower query) tag = k)
    (sorted_matches query include_definitions include_references all_tags)
  = filter (fun tag => sort_key (Py.lower query) tag = k)
      (filter_tags query include_definitions include_references all_tags).
Proof. apply list_sort_stable. Qed.

Lemma filter_tags_empty_query include_definitions include_references all_tags :
  filter_tags "" include_definitions include_references all_tags
  = filter (kind_enabled include_definitions include_references) all_tags.
Proof.
  unfold filter_tags. apply list_filter_iff. intros tag.
  rewrite tag_matches_spec. unfold kind_enabled. split; [tauto|].
  intros Hk. split; [|done]. exists "", (Py.lower (Tag.name tag)). done.
Qed.

(** X13. With the empty query every tag of an enabled kind matches, and the
    sorted matches are the enabled definitions, in the order of the scan,
    followed by the enabled references, in the order of the scan. *)
Theorem sorted_matches_empty_query
    (include_definitions include_references : bool) (all_tags : list Tag.t) :
  sorted_matches "" include_definitions include_references all_tags
  = filter (fun tag => Tag.kind tag = "def" ∧ include_definitions = true) all_tags
    ++ filter (fun tag => Tag.kind tag = "ref" ∧ include_references = true) all_tags.
Proof.
  set (sorted := sorted_matches "" include_definitions include_references all_tags).
  assert (∀ tag, sort_key (Py.lower "") tag
                 = (negb (bool_decide (Tag.kind tag = "def")), 0%Z)) as Hkey.
  { intros tag. unfold sort_key. by rewrite find_empty. }
  rewrite (sorted_two_keys (sort_key (Py.lower "")) (false, 0%Z) (true, 0%Z) sorted).
  - subst sorted. rewrite !sorted_matches_stable, filter_tags_empty_query.
    rewrite !list_filter_filter. f_equal; apply list_filter_iff; intros tag;
      rewrite Hkey; unfold kind_enabled;
      destruct (decide (Tag.kind tag = "def")) as [Hd|Hd].
    + rewrite bool_decide_eq_true_2 by done. simpl.
      split; [intros [_ [?|[Hr _]]]; [done | congruence] | intros ?; by split; [|left]].
    + rewrite bool_decide_eq_false_2 by done. simpl.
      split; [intros [[=] _] | intros [? _]; done].
    + rewrite bool_decide_eq_true_2 by done. simpl.
      split; [intros [[=] _] | intros [Hr _]; rewrite Hd in Hr; done].
    + rewrite bool_decide_eq_false_2 by done. simpl.
      split; [intros [_ [[? _]|?]]; done | intros ?; by split; [|right]].
  - done.
  - apply Forall_forall. intros tag _. rewrite Hkey.
    destruct (bool_decide (Tag.kind tag = "def")); simpl; [by left | by right].
  - apply sorted_matches_sorted.
Qed.

Lemma collect_tags_raise project_root pre : ∀ repo tags repo1 f post rel e,
  collect_tags repo project_root pre = Ok (tags, repo1) →
  relative_to f project_root = Ok rel →
  get_tags repo1 f rel = Raise e →
  collect_tags repo project_root (pre ++ f :: post) = Raise e.
Proof.
  induction pre as [|g pre IH]; intros repo tags repo1 f post rel e Hpre Hrel Hget.
  - injection Hpre as _ <-. simpl. rewrite Hrel. simpl. by rewrite Hget.
  - simpl in *. destruct (relative_to g project_root) as [grel|]; [|done].
    simpl in *. destruct (get_tags repo g grel) as [[gtags repo2]|]; [|done].
    simpl in *.
    destruct (collect_tags repo2 project_root pre) as [[more repo3]|] eqn:Hc;
      [|done].
    injection Hpre as _ <-. by rewrite (IH _ _ _ f post rel e Hc Hrel Hget).
Qed.

(** X14. A failure on one file fails the whole search: when reading the
    tags of any source file of the project raises, [search_identifiers]
    returns no results at all but the error ["Error searching identifiers:
    "] followed by the exception text. *)
Theorem search_aborts_on_tag_failure (cfg : ProjectConfig) (fs : filesystem)
    (project_name query : string) (max_results context_lines : Z)
    (include_definitions include_references : bool)
    (repo repo1 : RepoMap) (pre post : list string) (f rel e : string)
    (tags : list Tag.t) :
  let project_root := get_project_root cfg project_name in
  project_root ≠ "" →
  RepoMap_init (search_args project_root) = Ok repo →
  find_src_files fs project_root = pre ++ f :: post →
  collect_tags repo project_root pre = Ok (tags, repo1) →
  relative_to f project_root = Ok rel →
  get_tags repo1 f rel = Raise e →
  search_identifiers (Some cfg) fs project_name query max_results context_lines
    include_definitions include_references
  = {[ "error" := PStr ("Error searching identifiers: " +:+ e) ]}.
Proof.
  intros project_root Hroot Hinit Hfiles Hpre Hrel Hget.
  unfold search_identifiers. fold project_root.
  assert (Py.truthy_str project_root = true) as ->.
  { destruct (Py.truthy_str _) eqn:E; [done | by apply truthy_str_false in E]. }
  cbn [negb]. unfold search_body. unfold search_args in Hinit. rewrite Hinit.
  simpl. rewrite Hfiles, (collect_tags_raise _ _ _ _ _ _ _ _ _ Hpre Hrel Hget).
  done.
Qed.

(** X15. The context of a tag on line [n] is rendered for the lines from
    [max(1, n - context_lines)] to [n + context_lines]: [render_tree] is
    called with exactly these line numbers, none of which is below 1. *)
Theorem context_window (repo : RepoMap) (project_root : string)
    (context_lines : Z) (tag : Tag.t) (rest : list Tag.t) :
  (∀ z, z ∈ context_range (Tag.line tag) context_lines ↔
        (1 ≤ z)%Z
        ∧ (Tag.line tag - context_lines ≤ z ≤ Tag.line tag + context_lines)%Z)
  ∧ (∀ e,
       render_tree repo (path_div project_root (Tag.rel_fname tag))
         (Tag.rel_fname tag) (context_range (Tag.line tag) context_lines)
       = Raise e →
       format_results repo project_root context_lines (tag :: rest) = Raise e).
Proof.
  split.
  - intros z. unfold context_range. rewrite range_spec. lia.
  - intros e He. simpl. unfold context_range in He. by rewrite He.
Qed.

(** X16. The number of matches kept after the cut, for any [max_results]:
    with [n] matching tags it is [min(max_results, n)] when [max_results] is
    not negative and [max(0, n + max_results)] when it is. *)
Theorem limited_matches_length (query : string) (max_results : Z)
    (include_definitions include_references : bool) (all_tags : list Tag.t) :
  let n := Z.of_nat (length (filter_tags query include_definitions
                               include_references all_tags)) in
  Z.of_nat (length (limited_matches query max_results include_definitions
                      include_references all_tags))
  = if (0 <=? max_results)%Z then Z.min max_results n
    else Z.max 0 (n + max_results).
Proof.
  intros n. unfold limited_matches, Py.slice_to.
  assert (length (sorted_matches query include_definitions include_references
                    all_tags)
          = length (filter_tags query include_definitions include_references
                      all_tags)) as Hlen.
  { apply Permutation_length, list_sort_perm. }
  destruct (0 <=? max_results)%Z eqn:Hsign; rewrite length_take, Hlen; subst n;
    [apply Z.leb_le in Hsign | apply Z.leb_gt in Hsign]; lia.
Qed.

End SearchMore.

Lemma search_results_sound_witness :
  ∃ results m,
    search_identifiers (pathlib := Demo.pathlib) (utils := Demo.utils)
      (engine := Demo.engine) (Some Demo.config) Demo.fs "demo" "FOO" 50 2
      true false !! "results" = Some (PMatches results)
    ∧ m ∈ results
    ∧ Match.context m ≠ ""
    ∧ (∃ pre post, Py.lower (Match.name m) = pre +:+ Py.lower "FOO" +:+ post)
    ∧ ((Match.kind m = "def" ∧ true = true) ∨ (Match.kind m = "ref" ∧ false = true)).
Proof.
  eexists. exists (Match.mk "a.py" 3 "my_foo" "def" "a.py").
  split; [vm_compute; reflexivity|]. split; [apply list_elem_of_here|].
  apply (search_results_sound (pathlib := Demo.pathlib) (utils := Demo.utils)
           (engine := Demo.engine) (Some Demo.config) Demo.fs "demo" "FOO" 50 2
           true false [Match.mk "a.py" 3 "my_foo" "def" "a.py"]).
  - vm_compute. reflexivity.
  - apply list_elem_of_here.
Defined.

Lemma search_results_empty_witness :
  ∃ results,
    search_identifiers (pathlib := Demo.pathlib) (utils := Demo.utils)
      (engine := Demo.engine) (Some Demo.config) Demo.fs "demo" "foo" 0 2
      true true !! "results" = Some (PMatches results)
    ∧ results = [].
Proof.
  eexists. split; [vm_compute; reflexivity|].
  apply (search_results_empty (pathlib := Demo.pathlib) (utils := Demo.utils)
           (engine := Demo.engine) (Some Demo.config) Demo.fs "demo" "foo" 0 2
           true true).
  - left. reflexivity.
  - vm_compute. reflexivity.
Defined.

Lemma search_aborts_on_tag_failure_witness :
  search_identifiers (pathlib := Demo.pathlib) (utils := Demo.utils)
    (engine := DemoFaults.engine) (Some Demo.config) Demo.fs "demo" "foo" 50 2
    true true
  = {[ "error" := PStr "Error searching identifiers: cannot parse pkg/b.py" ]}.
Proof.
  apply (search_aborts_on_tag_failure (pathlib := Demo.pathlib)
           (utils := Demo.utils) (engine := DemoFaults.engine) Demo.config
           Demo.fs "demo" "foo" 50 2 true true tt tt ["/srv/demo/a.py"] []
           "/srv/demo/pkg/b.py" "pkg/b.py" "cannot parse pkg/b.py"
           (Demo.tags_of "/srv/demo/a.py" "a.py")).
  - vm_compute. discriminate.
  - reflexivity.
  - vm_compute. reflexivity.
  - vm_compute. reflexivity.
  - vm_compute. reflexivity.
  - reflexivity.
Defined.

Lemma repo_map_error_cases_witness :
  repo_map (pathlib := Demo.pathlib) (utils := Demo.utils)
    (engine := DemoFaults.broken_engine) (Some Demo.config) Demo.fs "demo" None
    None 8192 false false None None false None !! "error"
  = Some (PStr "Failed to initialize RepoMap: bad root").
Proof.
  apply (repo_map_error_cases (pathlib := Demo.pathlib) (utils := Demo.utils)
           (engine := DemoFaults.broken_engine) (Some Demo.config) Demo.fs
           "demo" None None 8192 false false None None false None).
  right. right. left.
  destruct (repo_map_request (pathlib := Demo.pathlib) (utils := Demo.utils)
              (Some Demo.config) Demo.fs "demo" None None 8192 false false None
              None false None) as [early|c] eqn:Hreq;
    [vm_compute in Hreq; discriminate|].
  exists c, "bad root". split_and!; reflexivity.
Defined.

Lemma other_files_keep_order_witness :
  ∃ c,
    repo_map_request (pathlib := Demo.pathlib) (utils := Demo.utils)
      (Some Demo.config) Demo.fs "demo" (Some ["/srv/demo/a.py"])
      (Some ["/srv/demo/x.py"; "/srv/demo/a.py"; "/srv/demo/x.py"]) 8192 false
      false None None false None = inr c
    ∧ call_other_files c = ["/srv/demo/x.py"; "/srv/demo/x.py"]
    ∧ call_other_files c
      = filter (fun f => f ∉ ["/srv/demo/a.py"])
          ["/srv/demo/x.py"; "/srv/demo/a.py"; "/srv/demo/x.py"].
Proof.
  destruct (repo_map_request (pathlib := Demo.pathlib) (utils := Demo.utils)
              (Some Demo.config) Demo.fs "demo" (Some ["/srv/demo/a.py"])
              (Some ["/srv/demo/x.py"; "/srv/demo/a.py"; "/srv/demo/x.py"]) 8192
              false false None None false None) as [early|c] eqn:Hreq;
    [vm_compute in Hreq; discriminate|].
  exists c.
  destruct (other_files_keep_order (pathlib := Demo.pathlib)
              (utils := Demo.utils) _ _ _ _ _ _ _ _ _ _ _ _ c Hreq)
    as (_ & Hexact & _).
  split_and!; [reflexivity | | exact Hexact].
  vm_compute in Hreq. by injection Hreq as <-.
Defined.

Lemma repo_map_passes_engine_text_witness :
  repo_map (pathlib := Demo.pathlib) (utils := Demo.utils)
    (engine := Demo.mapping_engine) (Some Demo.config) Demo.fs "demo" None None
    8192 false false None None false None
  = {[ "map" := PStr "/srv/demo/a.py/srv/demo/pkg/b.py" ]}.
Proof.
  destruct (repo_map_request (pathlib := Demo.pathlib) (utils := Demo.utils)
              (Some Demo.config) Demo.fs "demo" None None 8192 false false None
              None false None) as [early|c] eqn:Hreq;
    [vm_compute in Hreq; discriminate|].
  apply (repo_map_passes_engine_text (pathlib := Demo.pathlib)
           (utils := Demo.utils) (engine := Demo.mapping_engine) _ _ _ _ _ _ _
           _ _ _ _ _ c (call_args c) _ Hreq).
  - reflexivity.
  - vm_compute in Hreq. injection Hreq as <-. vm_compute. reflexivity.
  - discriminate.
Defined.
